(** * Event-emission admission control of the go-opera emitter

  A shallow embedding of [emitter/control.go] (package [emitter]):
  [scalarUpdMetric], [updMetric], [kickStartMetric], [eventMetric],
  [top50], [isInTop50], [isAllowedToEmit] and [recheckIdleTime],
  together with the properties the specification states about them.

  Go's fixed-width integers are modelled as [Z] with the wrap-around of
  every operation written out; [float64] is IEEE 754 binary64 as given
  by [SpecFloat]; the emitter's [stakeRatio] map is a [gmap]. *)

From Stdlib Require Import ZArith Lia Bool List.
From Stdlib Require Import Floats.SpecFloat.
From Stdlib Require Strings.Ascii Strings.String.
From stdpp Require Import base option list gmap.

Local Open Scope Z_scope.

(** ** Go's machine integers *)

Module Go.

(** [uint64(x)]: the value of [x] modulo 2^64. *)
Definition uint64 (x : Z) : Z := x mod 2 ^ 64.

(** [uint32(x)]: the value of [x] modulo 2^32. *)
Definition uint32 (x : Z) : Z := x mod 2 ^ 32.

(** [int64(x)]: two's-complement reading of the low 64 bits of [x]. *)
Definition int64 (x : Z) : Z := (x + 2 ^ 63) mod 2 ^ 64 - 2 ^ 63.

Definition MaxInt64 : Z := 2 ^ 63 - 1.
Definition MinInt64 : Z := - 2 ^ 63.

(** Unsigned 64-bit arithmetic. *)
Definition add_u64 (a b : Z) : Z := uint64 (a + b).
Definition sub_u64 (a b : Z) : Z := uint64 (a - b).
Definition mul_u64 (a b : Z) : Z := uint64 (a * b).

(** Unsigned 32-bit subtraction ([idx.Event] is a [uint32]). *)
Definition sub_u32 (a b : Z) : Z := uint32 (a - b).

(** Signed 64-bit addition; signed division truncates towards zero. *)
Definition add_i64 (a b : Z) : Z := int64 (a + b).
Definition quo_i64 (a b : Z) : Z := int64 (Z.quot a b).

End Go.

(** ** Package [time] *)

Module time.

(** [time.Duration] is an [int64] count of nanoseconds. *)
Abbreviation Duration := Z (only parsing).

(** A [time.Time] is read on its wall clock only, as nanoseconds since
    the Unix epoch: the left operand of every [Sub] in this file comes
    from [time.Unix] and carries no monotonic reading, in which case
    [Sub] compares wall clocks. *)
Abbreviation Time := Z (only parsing).

Definition Millisecond : Z := 1000000.
Definition Second : Z := 1000000000.

(** [t.Sub(u)]: the difference [t - u], saturated to the range of
    [Duration] when it does not fit. *)
Definition Sub (t u : Time) : Duration :=
  let d := t - u in
  if d <? Go.MinInt64 then Go.MinInt64
  else if Go.MaxInt64 <? d then Go.MaxInt64
  else d.

End time.

(** ** [float64] *)

Module float64.

Definition prec : Z := 53.
Definition emax : Z := 1024.

(** [float64(n)] for an integer [n]: rounded to nearest, ties to even. *)
Definition of_Z (n : Z) : spec_float := binary_normalize prec emax n 0 false.

Definition sub : spec_float -> spec_float -> spec_float := SFsub prec emax.
Definition mul : spec_float -> spec_float -> spec_float := SFmul prec emax.
Definition div : spec_float -> spec_float -> spec_float := SFdiv prec emax.

(** The integer part of a finite float (the fraction is discarded);
    [None] for infinities and NaN. *)
Definition trunc (f : spec_float) : option Z :=
  match f with
  | S754_zero _ => Some 0
  | S754_finite s m e =>
      let mag := match e with
                 | Zneg p => Zpos m / 2 ^ Zpos p
                 | _ => Zpos m * 2 ^ e
                 end in
      Some (if s then - mag else mag)
  | S754_infinity _ | S754_nan => None
  end.

(** [int64(f)]: the truncated value when it fits in an [int64]. Go leaves
    the result of the conversion implementation-specific otherwise;
    [unrepresentable] stands for what the platform yields then. *)
Definition to_int64 (unrepresentable : spec_float -> Z) (f : spec_float) : Z :=
  match trunc f with
  | Some z =>
      if (Go.MinInt64 <=? z) && (z <=? Go.MaxInt64) then z
      else unrepresentable f
  | None => unrepresentable f
  end.

End float64.

(** ** Package [piecefunc] *)

Module piecefunc.

(** Modelled from the spec: the scale constant DECIMAL_UNIT of the
    fixed-point metric, 1_000_000 ([piecefunc.DecimalUnit = 1e6]; the
    package lies outside these sources). *)
Definition DecimalUnit : Z := 1000000.

End piecefunc.

(** ** Package [idx]: index types *)

Module idx.

(** [idx.Event], [idx.Validator] and [idx.ValidatorID] are [uint32];
    [idx.Block] is [uint64]. *)
Abbreviation Event := Z (only parsing).
Abbreviation Validator := Z (only parsing).
Abbreviation ValidatorID := Z (only parsing).
Abbreviation Block := Z (only parsing).

End idx.

(** ** Package [pos]: the validator set *)

Module pos.

Abbreviation Weight := Z (only parsing).

(** Modelled from the spec: the validator set, "an ordered mapping from
    ValidatorID to Weight" in descending stake order, whose type
    declaration lies outside these sources. The position of an entry
    is the validator's index. *)
Record Validators : Type := { entries : list (idx.ValidatorID * Weight) }.

(** Modelled from the spec: [SortedIDs() -> ordered sequence of
    ValidatorID (descending stake)]. *)
Definition SortedIDs (vv : Validators) : list idx.ValidatorID :=
  map fst (entries vv).

(** Modelled from the spec: [GetWeightByIdx] "is a stable index lookup
    into this set"; an index past the end is a run-time panic, [None]. *)
Definition GetWeightByIdx (vv : Validators) (i : idx.Validator) : option Weight :=
  snd <$> entries vv !! Z.to_nat i.

(** Modelled from the spec: [TotalWeight = sum of the weights]. *)
Definition TotalWeight (vv : Validators) : Weight :=
  foldr (fun p acc => snd p + acc) 0 (entries vv).

End pos.

(** ** Package [inter]: events *)

Module inter.

(** [inter.Timestamp] is a [uint64] count of nanoseconds. *)
Abbreviation Timestamp := Z (only parsing).

(** [t.Time()] is [time.Unix(int64(t)/1e9, int64(t)%1e9)]: the instant
    [int64(t)] nanoseconds after the Unix epoch. *)
Definition Time (t : Timestamp) : time.Time := Go.int64 t.

(** Modelled from the spec: the gas power left, "a structured
    remaining-budget value supporting a Min() scalar projection"; the
    budgets are [uint64], one per window (short and long). *)
Record GasPower : Type := { Gas : Z * Z }.

Definition Min (g : GasPower) : Z := Z.min (fst (Gas g)) (snd (Gas g)).

(** What [isAllowedToEmit] reads of an event, through [inter.EventI]. *)
Record Event : Type := {
  CreationTime : Timestamp;
  Creator : idx.ValidatorID;
  GasPowerLeft : GasPower
}.

End inter.

(** ** Package [emitter]: state *)

(** [em.config]: the fields read here. *)
Record Config : Type := {
  Validator_ID : idx.ValidatorID;
  EmergencyThreshold : Z;
  NoTxsThreshold : Z
}.

(** [em.intervals]: durations. *)
Record EmitIntervals : Type := {
  Min : time.Duration;
  Confirming : time.Duration;
  Max : time.Duration
}.

(** [em.world]: the latest block index, the rule
    [Economy.BlockMissedSlack] (both [uint64]) and the world mutex. *)
Record World : Type := {
  LatestBlockIndex : idx.Block;
  BlockMissedSlack : idx.Block;
  locked : bool
}.

Record Emitter : Type := {
  config : Config;
  world : World;
  validators : pos.Validators;
  stakeRatio : gmap Z Z;
  intervals : EmitIntervals;
  prevEmittedAtTime : time.Time;
  prevIdleTime : time.Time;
  prevEmittedAtBlock : idx.Block;
  noPendingWork : bool
}.

(** Modelled from the spec: [em.idle()], whose body lies outside these
    sources, holds when "the controller currently has no pending work". *)
Definition idle (em : Emitter) : bool := noPendingWork em.

(** [em.stakeRatio[id]]: a missing key reads as zero. *)
Definition stakeRatioOf (em : Emitter) (id : idx.ValidatorID) : Z :=
  default 0 (stakeRatio em !! id).

(** The local variables of [isAllowedToEmit]. *)
Record Locals : Type := {
  passedTime : time.Duration;
  passedTimeIdle : time.Duration;
  adjustedPassedTime : time.Duration;
  adjustedPassedIdleTime : time.Duration;
  passedBlocks : idx.Block;
  supermajority : bool
}.

(** The [return] statements of [isAllowedToEmit], in source order, and
    the literal each of them returns. *)
Inductive ReturnSite : Type :=
| NotEnoughPower      (* line 614 *)
| EnforcedEmit        (* line 628 *)
| LowPower            (* line 641 *)
| NoTxs               (* line 650 *)
| BelowMin            (* line 656 *)
| AdjustedBelowMin    (* line 660 *)
| AdjustedBelowConfirming (* line 665 *)
| EndOfChecks         (* line 669 *)
| MaxTimePassed       (* line 673 *)
| NotSupermajority.   (* line 676 *)

Definition returned (r : ReturnSite) : bool :=
  match r with
  | NotEnoughPower => false
  | EnforcedEmit => true
  | LowPower => true
  | NoTxs => true
  | BelowMin => true
  | AdjustedBelowMin => true
  | AdjustedBelowConfirming => true
  | EndOfChecks => true
  | MaxTimePassed => true
  | NotSupermajority => false
  end.

(** ** Package [emitter]: the progress metric *)

Section Control.

(** The two piecewise-linear tables of [emitter/piecefuncs.go], each a
    [func(uint64) uint64], lie outside these sources. *)
Variable scalarUpdMetricF : Z -> Z.
Variable eventMetricF : Z -> Z.

(** What [time.Duration(f)] yields on this platform when the float [f]
    has no [int64] value. *)
Variable unrepresentable : spec_float -> Z.

(** [ancestor.Metric] is a [uint64]. A result of [None] is a run-time
    panic: here the integer division by a zero [totalWeight]. *)
Definition scalarUpdMetric (diff : idx.Event) (weight totalWeight : pos.Weight)
  : option Z :=
  if totalWeight =? 0 then None
  else Some (Go.mul_u64
               (scalarUpdMetricF (Go.mul_u64 diff piecefunc.DecimalUnit))
               weight
             / totalWeight).

Definition updMetric (median cur upd : idx.Event) (validatorIdx : idx.Validator)
           (validators : pos.Validators) : option Z :=
  if (upd <=? median) || (upd <=? cur) then Some 0
  else
    weight ← pos.GetWeightByIdx validators validatorIdx;
    if median <? cur then
      a ← scalarUpdMetric (Go.sub_u32 upd median) weight (pos.TotalWeight validators);
      b ← scalarUpdMetric (Go.sub_u32 cur median) weight (pos.TotalWeight validators);
      Some (Go.sub_u64 a b)
    else
      scalarUpdMetric (Go.sub_u32 upd median) weight (pos.TotalWeight validators).

(** The constants [0.9*piecefunc.DecimalUnit] and the like are exact
    integers. *)
Definition tenths (n : Z) : Z := n * piecefunc.DecimalUnit / 10.
Definition hundredths (n : Z) : Z := n * piecefunc.DecimalUnit / 100.

Definition kickStartMetric (metric : Z) (seq : idx.Event) : Z :=
  (* kickstart metric in a beginning of epoch, when there's nothing to
     observe yet *)
  let metric :=
    if (seq <=? 2) && (metric <? tenths 9)
    then Go.add_u64 metric (tenths 1) else metric in
  let metric :=
    if (seq <=? 1) && (metric <=? tenths 8)
    then Go.add_u64 metric (tenths 2) else metric in
  metric.

(** The conversions [uint64(orig)] and [ancestor.Metric(...)] are
    between types of the same representation. *)
Definition eventMetric (orig : Z) (seq : idx.Event) : Z :=
  kickStartMetric (eventMetricF orig) seq.

Definition top50 (slice : list idx.ValidatorID) : list idx.ValidatorID :=
  if (50 <? length slice)%nat then take 50 slice else slice.

(** The [range] loop returns [true] at the first element equal to
    [number], and [false] once the slice is exhausted. *)
Fixpoint range_has (number : idx.ValidatorID) (s : list idx.ValidatorID) : bool :=
  match s with
  | [] => false
  | v :: rest => if v =? number then true else range_has number rest
  end.

Definition isInTop50 (number : idx.ValidatorID) (slice : list idx.ValidatorID) : bool :=
  range_has number (top50 slice).


(** ** [isAllowedToEmit] *)

(** A negative duration is replaced by zero. *)
Definition floor0 (d : time.Duration) : time.Duration :=
  if d <? 0 then 0 else d.

(** [time.Duration(ancestor.Metric(d/piecefunc.DecimalUnit) * metric)]. *)
Definition adjust (d : time.Duration) (metric : Z) : time.Duration :=
  Go.int64 (Go.mul_u64 (Go.uint64 (Go.quo_i64 d piecefunc.DecimalUnit)) metric).

(** Lines 572-592: the locals as they stand when the [supermajority]
    test is reached. *)
Definition locals (em : Emitter) (e : inter.Event) (metric : Z) : Locals :=
  let now := inter.Time (inter.CreationTime e) in
  let passedTime := floor0 (time.Sub now (prevEmittedAtTime em)) in
  let passedTimeIdle := floor0 (time.Sub now (prevIdleTime em)) in
  let adjustedPassedTime := adjust passedTime metric in
  let adjustedPassedIdleTime := adjust passedTimeIdle metric in
  let passedBlocks :=
    Go.sub_u64 (LatestBlockIndex (world em)) (prevEmittedAtBlock em) in
  let supermajority := true in
  let supermajority :=
    if (inter.Creator e =? Validator_ID (config em))
       && negb (isInTop50 (inter.Creator e) (pos.SortedIDs (validators em)))
    then true (* disable check *)
    else supermajority in
  {| passedTime := passedTime;
     passedTimeIdle := passedTimeIdle;
     adjustedPassedTime := adjustedPassedTime;
     adjustedPassedIdleTime := adjustedPassedIdleTime;
     passedBlocks := passedBlocks;
     supermajority := supermajority |}.

(** Lines 595-604: [passedTimeIdle] is reassigned by stake tier. *)
Definition blendIdle (em : Emitter) (e : inter.Event) (l : Locals) : Locals :=
  let passedTimeIdle :=
    if stakeRatioOf em (inter.Creator e) <? hundredths 35 then
      passedTime l
    else if stakeRatioOf em (inter.Creator e) <? tenths 7 then
      Go.quo_i64 (Go.add_i64 (passedTimeIdle l) (passedTime l)) 2
    else passedTimeIdle l in
  let passedTimeIdle :=
    if passedTime l <? passedTimeIdle then passedTime l else passedTimeIdle in
  {| passedTime := passedTime l;
     passedTimeIdle := passedTimeIdle;
     adjustedPassedTime := adjustedPassedTime l;
     adjustedPassedIdleTime := adjustedPassedIdleTime l;
     passedBlocks := passedBlocks l;
     supermajority := supermajority l |}.

(** Lines 607-616: not enough power, and power is decreasing. *)
Definition notEnoughPower (em : Emitter) (e : inter.Event)
           (selfParent : option inter.Event) : bool :=
  let threshold := EmergencyThreshold (config em) in
  if inter.Min (inter.GasPowerLeft e) <=? threshold then
    match selfParent with
    | Some sp =>
        inter.Min (inter.GasPowerLeft e) <? inter.Min (inter.GasPowerLeft sp)
    | None => false
    end
  else false.

(** Lines 620-624. *)
Definition maxBlocks (em : Emitter) : idx.Block :=
  let slack := BlockMissedSlack (world em) in
  let maxBlocks := Go.add_u64 (slack / 2) 1 in
  if (maxBlocks <? slack) && (maxBlocks <? Go.sub_u64 slack 5)
  then Go.sub_u64 slack 5
  else maxBlocks.

(** Lines 625-627. *)
Definition enforced (em : Emitter) (metric : Z) (l : Locals) : bool :=
  (Max (intervals em) <=? passedTime l)
  || ((Go.mul_u64 (maxBlocks em) 4 / 5 <=? passedBlocks l)
      && (piecefunc.DecimalUnit / 2 <=? metric))
  || (maxBlocks em <=? passedBlocks l).

(** Line 633. *)
Definition lowPowerThreshold (em : Emitter) : Z :=
  Go.add_u64 (NoTxsThreshold (config em)) (EmergencyThreshold (config em)) / 2.

(** Lines 636-639, each float operation rounded on its own. *)
Definition adjustedEmitInterval (em : Emitter) (e : inter.Event) : time.Duration :=
  let minT := float64.of_Z (Min (intervals em)) in
  let maxT := float64.of_Z (Max (intervals em)) in
  let factor :=
    float64.div (float64.of_Z (inter.Min (inter.GasPowerLeft e)))
                (float64.of_Z (lowPowerThreshold em)) in
  float64.to_int64 unrepresentable
    (float64.sub maxT (float64.mul (float64.sub maxT minT) factor)).

(** The statement reached by [isAllowedToEmit]. The periodic warning
    logged before line 614 does not bear on the result. *)
Definition isAllowedToEmit_site (em : Emitter) (e : inter.Event) (eTxs : bool)
           (metric : Z) (selfParent : option inter.Event) : ReturnSite :=
  let l := locals em e metric in
  if supermajority l then
    let l := blendIdle em e l in
    (* Forbid emitting if not enough power and power is decreasing *)
    if notEnoughPower em e selfParent then NotEnoughPower
    (* Enforce emitting if passed too many time/blocks since previous event *)
    else if enforced em metric l then EnforcedEmit
    (* Slow down emitting if power is low *)
    else if (inter.Min (inter.GasPowerLeft e) <=? lowPowerThreshold em)
            && (passedTime l <? adjustedEmitInterval em e) then LowPower
    (* Slow down emitting if no txs to confirm/originate *)
    else if (passedTime l <? Max (intervals em)) && idle em && negb eTxs
    then NoTxs
    (* Emitting is controlled by the efficiency metric *)
    else if passedTime l <? Min (intervals em) then BelowMin
    else if (adjustedPassedTime l <? Min (intervals em)) && negb (idle em)
    then AdjustedBelowMin
    else if (adjustedPassedIdleTime l <? Confirming (intervals em))
            && negb (idle em) && negb eTxs
    then AdjustedBelowConfirming
    else EndOfChecks
  else
    (* Enforce emitting if passed Max time *)
    if Max (intervals em) <=? passedTime l then MaxTimePassed
    else NotSupermajority.

Definition isAllowedToEmit (em : Emitter) (e : inter.Event) (eTxs : bool)
           (metric : Z) (selfParent : option inter.Event) : bool :=
  returned (isAllowedToEmit_site em e eTxs metric selfParent).

(** ** [recheckIdleTime] *)

(** [em.world.Lock()] returns once the caller holds the mutex. With no
    other goroutine in the model to release it, the call returns only
    from a free mutex; [None] is a call that does not return. *)
Definition Lock (w : World) : option World :=
  if locked w then None
  else Some {| LatestBlockIndex := LatestBlockIndex w;
               BlockMissedSlack := BlockMissedSlack w;
               locked := true |}.

(** [em.world.Unlock()]; unlocking a free mutex is a fatal error. *)
Definition Unlock (w : World) : option World :=
  if locked w
  then Some {| LatestBlockIndex := LatestBlockIndex w;
               BlockMissedSlack := BlockMissedSlack w;
               locked := false |}
  else None.

Definition withWorld (w : World) (em : Emitter) : Emitter :=
  {| config := config em; world := w; validators := validators em;
     stakeRatio := stakeRatio em; intervals := intervals em;
     prevEmittedAtTime := prevEmittedAtTime em;
     prevIdleTime := prevIdleTime em;
     prevEmittedAtBlock := prevEmittedAtBlock em;
     noPendingWork := noPendingWork em |}.

Definition withPrevIdleTime (t : time.Time) (em : Emitter) : Emitter :=
  {| config := config em; world := world em; validators := validators em;
     stakeRatio := stakeRatio em; intervals := intervals em;
     prevEmittedAtTime := prevEmittedAtTime em;
     prevIdleTime := t;
     prevEmittedAtBlock := prevEmittedAtBlock em;
     noPendingWork := noPendingWork em |}.

Definition withValidators (vv : pos.Validators) (em : Emitter) : Emitter :=
  {| config := config em; world := world em; validators := vv;
     stakeRatio := stakeRatio em; intervals := intervals em;
     prevEmittedAtTime := prevEmittedAtTime em;
     prevIdleTime := prevIdleTime em;
     prevEmittedAtBlock := prevEmittedAtBlock em;
     noPendingWork := noPendingWork em |}.

Definition withStakeRatio (r : gmap Z Z) (em : Emitter) : Emitter :=
  {| config := config em; world := world em; validators := validators em;
     stakeRatio := r; intervals := intervals em;
     prevEmittedAtTime := prevEmittedAtTime em;
     prevIdleTime := prevIdleTime em;
     prevEmittedAtBlock := prevEmittedAtBlock em;
     noPendingWork := noPendingWork em |}.

(** [now] is the reading of [time.Now()]; the deferred [Unlock] runs
    last. *)
Definition recheckIdleTime (now : time.Time) (em : Emitter) : option Emitter :=
  w ← Lock (world em);
  let em := withWorld w em in
  let em := if idle em then withPrevIdleTime now em else em in
  w ← Unlock (world em);
  Some (withWorld w em).

End Control.

(** ** The gas-power emergency condition, in the specification's words *)

(** The candidate's gas power is at most the emergency threshold, a
    self-parent exists, and the candidate's gas power is strictly lower
    than the self-parent's. *)
Definition powerEmergency (em : Emitter) (e : inter.Event)
           (selfParent : option inter.Event) : Prop :=
  inter.Min (inter.GasPowerLeft e) <= EmergencyThreshold (config em)
  /\ exists p, selfParent = Some p
             /\ inter.Min (inter.GasPowerLeft e) < inter.Min (inter.GasPowerLeft p).

(** ** Package [evmcore]: fake keys *)

Module evmcore.

Import Stdlib.Strings.Ascii Stdlib.Strings.String.
Local Open Scope string_scope.

(** The table [keys] of [FakeKey], a [[400]string]. *)
Definition keys : list String.string := [
  "0x163f5f0f9a621d72fedd85ffca3d08d131ab4e812181e0d30ffd1c885d20aac7";
  "0x3144c0aa4ced56dc15c79b045bc5559a5ac9363d98db6df321fe3847a103740f";
  "0x04a531f967898df5dbe223b67989b248e23c1c356a3f6717775cccb7fe53482c";
  "0x00ca81d4fe11c23fae8b5e5b06f9fe952c99ca46abaec8bda70a678cd0314dde";
  "0x532d9b2ce282fad94efefcf076fdfbe5befe558b145f4cc97f953bcabf087aeb";
  "0x6e50dbd3e81b22424cb230133b87bc9ef0f17c584a2a5dc4b212d2b83b5ee084";
  "0x2215aaee06a2d64ca32b201e1fb9d1e3c7a25d45a6d8b0de6300ba3a20e42ef5";
  "0x1cd6fdfc633c0fa73bd306c46eecd23096365b44ab75f0e6fa04dc2adbea9583";
  "0x2fc91d5829f44650c32ba92c8b29d511511446b91badf03b1fd0f808b91a4b5b";
  "0x6aeeb7f09e757baa9d3935a042c3d0d46a2eda19e9b676283dce4eaf32e29dc9";
  "0x7d51a817ee07c3f28581c47a5072142193337fdca4d7911e58c5af2d03895d1a";
  "0x59963733b8a6fb1c6eeb1ce51c7e6046e652a9bcacd4cbaa3f6f26dafe7f79f7";
  "0x4cf757812428b0764a871e94b02ba026a5d3738e69f7d1d4f9f93b43ed00e820";
  "0xa80a59dc6a9be8003a696ed08a4d37d5046f66201912b40c224d4fe96b515231";
  "0xa2ef6534312d205b045a94ec2e9d49191a6d17702671d51dd88a9e2837b612ce";
  "0x9512765baac04484c19491feb59fe8ef8ba557e29e00100f3159c8ee35c89038";
  "0x700717777c4b7ccdc8c79d6823cb3ea0356ac5e3822accdfa8539cf833caae15";
  "0x838ab204f288b4673bbc603ac52c167e8b1c1392cdd96bc02b8fcfadec98cc26";
  "0xbf6ba360590e69d1495ea8c0ab2f4a18ebbed7c4bbbe2d823a57719cd40df94f";
  "0xd2f091785e9ca0ea2388cf90a046e87552e5cbb4492a9702b83aa32dddf821ac";
  "0xad8b51bf6a35a934587413394ab453df559603f885ae3ff0e90c1d90c78153bd";
  "0xa1ae301b83bfdd9e4a6ffb277896e5b4438725844fd44b5f733219f9f0a1402b";
  "0x9bf39f28aa39153777677711b8ca8a733ffcdad9ec8831713a01d71fb3dbe184";
  "0xee948e4413ce4e82ecb51fb6669f82d5af9b0ca4c31924514e6e844e8da46051";
  "0xe9a94ddcec56059cffb6dd699011f2bb323293f90613385c8624839296b3d182";
  "0xbccc8d4364e82a04ea2dc840ad6eeec6a2c35a51fb01943d58728da7bd4364dc";
  "0xd8af1e1f98a3628e91e46888b02cb34b00fd72aee1946409a3435ea806f1ace8";
  "0x0ba54f6d7c269ae7d115a17446abe7ba52293997de821d262a3d113fd694d85a";
  "0x2666d00809c1ce11da2c7598d3ab54e1bb75263d9e25d8209568a1d5e7cf9cb7";
  "0x204b21603d4a076bcdd34db298229f935198ea695964a3e156289728290e6240";
  "0xd30f524750dbbef5833dddbcdcdaf6c7f4e43c777d5c468d124170838e83c59d";
  "0xee3002a37a510360b0de793b45dd56a4a7a1df843e04cd991441854978b5154e";
  "0x410605310cdc3bb8ffe3d472ebf183545e6a09f3b211616156d42d8ad2ee1218";
  "0x3d47844c536f73c3558bf2e2238b13b327be2890cad6de60a3940337b8afa774";
  "0x114a976408f9a71c581871a6b68f5006df44a178e86d0bc7659d591bb4e56da6";
  "0x2c1108cc823ae0c5f496ad61eaab90d0677875ab1b2e0a55a89ecd87388fa9b3";
  "0x5fb2462733c28810a8bc68712a08c201ed2b89e822bc7309834476cfa1857acc";
  "0x595726750f55bc28a9a2e50f92a6c5fab42e738409cab0008299039c9966e0fe";
  "0x6cb89990a3ecf4930470351f1d76a72525d2f702e47d490cc0cc087893d2664a";
  "0x275b9ee8df6f2c2d02cd1fb5c343f139867104d5da6f8d82afc771e2d11a28e4";
  "0x3a5abe2f6ee961774f0466fca8f986fb0a53c5560b0f239d2a7ce0c8cdb3e1d1";
  "0x97bb9f4bb472e89fc5405dd5786ea1de87c5d79758020abb0bfcbf4c48daf9a2";
  "0x8ae00c99180aa1f9a8fe2ee7e53aaaedc0e55ff71785f26afa725295d4de78ff";
  "0x65e35bf4a097d543df427ec67c192765f6edcbdda54e1b5c0bb5e99507f6a269";
  "0x5fa4c34c434e0ddf1f8b3917c3e9ecfcbc09df91237012ff8105bcba275e4b7a";
  "0x52ebc273f1da45483d5c6d884f0b65dda891ffee0ea6cdb0c6af90e852984e96";
  "0xadec518fdc716a50ffc89c1caf6d2861ffaf02f06656d9275bd5e5d25696c840";
  "0xc08f211d4803a2ab2c6c3c0745671decba5564dbebf9d339ae3344d055fd8e1d";
  "0x7cf47f78fc8a5a550eae7bc77fb2943dbf8b37dfc381b35ccc6970684ac6cbee";
  "0x90659790bafc92adea25095ebfabaffaa5c4bf1d1cc375ab3eac825832181398";
  "0xebcae9b7ee8dc6b813fd7aa567f94d9986a7d39a4997ebea3b09db85941cedb5";
  "0xde2da353e4200f22614ce98b03e7af8e3f79afa4dcd40666b679525103301606";
  "0xd850eca0a7ac46bc01962bcff3cd27fff5e32d401a4a4db3883a3f0e0bdf0933";
  "0xabd5c47c0be87b046603c7016258e65c4345aab4a65dde1daf60f2fb3f6c7b0c";
  "0xa6c6c5d4c176336017fe715861750fe674b6552755010bd1e8f24cbee19b9b59";
  "0xf90b1f7c5e046b894c4c70d93ed74367c4ec260a5ee0051876c929b0a7e98dcb";
  "0x15316697d6979fd22c5e3127e030484d94e4e7d78419200e669c3c2d0d9aa2e4";
  "0xe86120a57411c86be886b6df0e80ee2061ddf322043ef565b47b548c8072ae31";
  "0xe3e66700a59d00d5778c6b732d0e5f90b1516881a76ee4ad232aa7d06ba11e62";
  "0xdd876a98e12334ef52ca2d8e149a20b5e085e7e8c6281c2aa60736915073f53f";
  "0x30ab7160e3c2ec3884117f91e5189ca1c16af03af36a75cc0169b5f2e8163a88";
  "0x2b2a8abbbc4624e33f737bbcf8d864999619e7eb2e92630c2ce3a773c438fba5";
  "0xffcad1487800293d08dbe6355f60c170f41ae93906293f2a30c00568f6fb8717";
  "0x1b70a964ce916046ba1d3def8fc7d004f213028113e2751e3cf0a12307a21e9f";
  "0x4eb12e7c8a1d99a00dc99df7f8c162a929894ab2a638048627a08d9913c02efd";
  "0x6944e7e33cafcd099c1b2a88e87e8f57b3fc48a0002c4d168737f55bca9dce6e";
  "0x3c2bf03d642d85932ef2f6cc23259f8cc8782c60043c9d7ae58b096a02f9007b";
  "0x161c258dc7afadecfe8f8106ab619690ac01f52f669a3b1f453540bf82c78b14";
  "0x2941eea6ed3ee2166a0a8ce17f4a7e571cd8fd23ca270cc72839d7bafa955845";
  "0x85449300aed219707b7801669597c082dd9e4c74633472610c0009e79422da53";
  "0x79254268cf6352f9910405bb8c545aeeee8fbb61293e62663f81355b0ba3d86b";
  "0x548c31c260958764c20b417b416223ab8623e8364d84fc8806f665eeb084d6d9";
  "0x67edd0d0682a4e7e52575884db12d03b325bd6f8a5e18fb65b143f9f25df04aa";
  "0xa262f0ea06bc87c7829dc6fe38d83f99c326976a13c5a0e94da13adc5d136307";
  "0x9c655e84994bbe21ac8bade72dd6ebe37491c2986a8e4eb6ab2d007e3f130270";
  "0xaf06f1eb84c1f3c9e14e35e6aed34703803fea21dcf628f2bc178325b33148c1";
  "0x6aad2dc6d0442b14cfbdcc0ae207c3b88d31e1294606c287d1a6b0cc58670a5f";
  "0x7e4e0e156ae1532e98bfda00d850fb476f43b81f09af080446fece7b7d8ac388";
  "0xdaf1bfaeb6700798569f6d4815dff9fa6590856c27e6d9aa112cb06d5f21b525";
  "0xcd76b0089ef74032756bf06fdd5903c8787957e943e0622f9b35ba84185cb675";
  "0xa7b791cf6aae777a7954961b6b5c66b9326ee35ce379f17f554a55bd7cc91d5f";
  "0xbb76f0697e3baca59a9b7e5ad449c912ad568d371a1c579bc92b8043479606fc";
  "0x95f963b910d735ffd9dfd784ca683cc790aa40acdc5fa9d27fe8e84b6900528d";
  "0xe8fa32934f5e6c895f1586114cd3c84caf04f01efab47bcd8bc2efbd743e6dfb";
  "0x030076ec9dd721e30c743bea5f0019e80428a97fe900b7245b968c6a6f774313";
  "0xb7001594545d584baab7d6b056d3a39c325db2b450787329ed916dd26fa32260";
  "0xd2a748ae6cfa9156c94754320b22b35b295dfe779887098386b2cea72f4d0dd2";
  "0x258bb5bc5a87c5aebdadb7f83f39029242f0650bc52fc4cc482c89412532db2b";
  "0x20ecd5168010ed59a184fd5b5ac528b9fff70ed103ea58c6f35f0137854969b8";
  "0x1a517bb0a54425b29b032d4cc28423224963cda64b50ef9731b429660c8da129";
  "0xee61ccd710d6dabb81849a1ca2a9369c5484b65517ea80c7772135c55aa9f147";
  "0xe906f9f17d6511279053a95feca4a55ef59f97f2596790163ade48067d20238f";
  "0x3c8cd94010f44ac08efaae8a31e726bb4fc95564ee7c2e03e7a43ee43f31d6ed";
  "0x58ed1a9bde738f0a089ae0c7e18bf77d2489e75f282c1af6e16e0b86fc30c41e";
  "0x0be230f443fdc623254292438f0c0f86ba0b799c89d15c9383aa3a64d99628e7";
  "0x26a53f1c2b8fff8cfc6ca691777d1c84eb6bef60a3b3c26233c1b12faf653584";
  "0x79a6be35f01db3d6a2b659b49f04505a0ce1abf3770494a7a24a83642ae8a675";
  "0x54cd7ec556aeeb6f538fe1b7523a86425e520e288be516c95909582e79012bc3";
  "0x675e4d1f766213db0791a274e748e858d091460fb4a9222e4b75380f8ecabcdc";
  "0x4203c438d4e94bf4a595794b5f5c2882f959face730abb7a7b8acb462c8e138d";
  "0xf1d724ebfb5f7b17f7052cdf7a836d4c4c7ee4dd3e7ca4725575484f888433e9";
  "0x09a90166b0a2ed9424133272e91a07c3360726ac80d6e1573060351f39480587";
  "0x5a46eb6c75bffb43b5fa663489020f3b6d4536085594ec8f19f337a3736ba6cc";
  "0xb1e7cf7d8a29debe76ec7cb70b41f8ac6469f3e2c8b37a2f14790d163d15370a";
  "0x1a52df53475ced5eb4e64c813eea27e936b47ff0b432c1e3d644277fe863c3a9";
  "0x553c9973f1fbb945a736a6bdfd18ba9d91fc06565eac586fa6588e09853d1df0";
  "0xfb95936263538230ed917f11f33ac41968edb54245c945cd54b2e9256a08a844";
  "0x556c3cde12eb0892a8b7c6b342981e2c254958420a685579a2adfd1142576d46";
  "0x0090df7ebb848c5972f46dbf6242a17f83287da350d32a395c3ab83058ba691b";
  "0x25955bdbd28945f50d17724bbced5af21151626af51592ffa994f10aa6633b4e";
  "0x68f75a048cd1ce89b393c19632116934315108953eb847a1f037d78ce6960666";
  "0xca91899d0a625d34c196eb3fffe50e51ae3e87aacab82f0c53e37520c7e45af3";
  "0x3f5a5e5bc69137653eabb3f5c90ae596196ccc9c9925e53ecdc853b56eeb784c";
  "0xde93ecd614da95a47bb88b5f9110a9a5a9f016bc9e88134bcfe324378342e5e9";
  "0x1a80db1ae69eb985e62d611c4d1493ed3de68e58931db08486e6c5283765514f";
  "0x9cbdcb0f85e566da2d6c64b856c8aa20e78ee0465e17c29d319d4a53ea2541ee";
  "0x470e3980e35910994c2bf0a7e64b59a28ccbc1d995ba634d76cc33f6a73004b3";
  "0x071e22b5fe73f34462eca438e49c34d85f09e3eb13c9f66dd5fed6d9689bbaf8";
  "0x139d795138f400fca79d909bbad6b035d7b947df7cdd50aaf9a616a24de8c130";
  "0x6e30409a92cc0c8cf86f8ae6ade4a7ce53bf625169bdfa02417de7627446f326";
  "0x915889a946129f582197a1db0a09a6f12d3b6c9efa6923909879d180604677e0";
  "0x0c82284d2fa12ed5fb43d9dae8f3debdf5cf26b8741ace39b135d0040a151be8";
  "0x9f0b6818feedea2c15d62da3f6dd48092c7d0e00559643c867bf071e5a9ff682";
  "0xb34666769f0451291b2d60d0e8f1001318c9f43adfd603052b3f381a5678defe";
  "0x4e2c4db08ae9c20f6126a8a0edd30968c2c55ce333f84813fe672dc9dffe5a6a";
  "0x7bdaae56660f7930d78eaf717381a207e4e86985179ffc6914446823127a7c16";
  "0xff0da7ec6e3e56fadf382daa3d611fe1328c5219d4c2fb73c09a8fcb12bcf91b";
  "0xdb04d9f9d8c937b02c8d467ef377b47abe4516d1eb32b78712ec45e5516c1ba7";
  "0x2450c3cf1574a70e78a82af4a1abb6382bf0e7e1296997f2315139fcc595e01a";
  "0xb41c0ec277709073486a28f03a31709848c0d57037b8bd7a7debbc178f90115a";
  "0x7c43ac7fa076420af6e8645b3200d5d57350ff77cd911af371e5b653a6dd6f8e";
  "0xf8ed2daf53f7243a508ee65ccd195f7dde1999803d807ff15ec51fb04d02613d";
  "0xe606d3daecd9f06fd60131f9002d3491c9e86a08adf56323dce8e7f06e095319";
  "0x2974a674b028fc36315ceac006cc6fd858ea45e4b53176cf092f5c40560fd508";
  "0x8a35142859ad80c41626584538b24405f3ae2733cc41147662509ce923bb83b9";
  "0x2abd57cf597c98f22abca39756430da944782ddee87380cc56c11815e5eaf47c";
  "0x7450b15b4dca9639a538b6403fe8c99aa5de8244cf5064c89a85ccd4dcb573da";
  "0x486075ba7a2cdeb60b306d1c8a3680831b7f1634796acac1189a4b3995509c9a";
  "0xd84da5955eac7f6a0a6daf29e69b236837ff3de881d0626f4bb1e0f2ffbced6d";
  "0x5af34614f968625ecb3036367997258f13c3074c696fa5e74b9a20f6c9e6d6e8";
  "0x7f2718d8bdb921b2b8e3b8f580df3509727d0e6c416241080a8f07784344ecfd";
  "0x2fe9624cd4e14a5d090048348b606dd1f923f005fae6a3fe49ca97eba0361d53";
  "0x3f2fc9c73404966f095ef4a4b720a5e6bc66588d919a1d93f61ef202f212917f";
  "0x71f70b4dee2fa168c60d975d4c099e6afb4111d4a25a7e6060d6ecf91a762ff2";
  "0x1f536c448981894a41f77a854c7c87813460b95e04f1721e0c22c525058f618d";
  "0x7d2acd17fe73db065d71bdab05e31c3980174f1866021978ab6a88c312798b02";
  "0x6f579d82fe9bbf69dc0948a1e70fbb492853735d2c64ae96e02630fd5b362750";
  "0x174fdd2d55d3a000c3c2089f4a9f0fe44bc529147e5c0f365ead8cf6793cd875";
  "0x294a5ea034eda467a892984045ba74babca1fef909f963153e03a216d7125155";
  "0x07ed10820b5f5f16ff65f93f889ec65ce609761873f4dec55f8283ad7505bd17";
  "0x7d0bae5c434f420d55a635ae7909167bf326a6de119fe3bd52806142bb0a6c9a";
  "0xe5110b52da5c9bb29077b3871f5337a182a434834f08aa0de9ce2d3f84044441";
  "0x5efa44aa50b6263cb442ce41b0a99f80354bd1bfd5bde0448844be7ab37e7321";
  "0x662595fd57f899dbfa3b1dc69eb61f6a0be7df0c646d7fb2f1fb19dccf61ca17";
  "0x17a25d6fa0c24d573f0251c666ec730e5046f061bca56a69c350e710b9a6d0ed";
  "0x5d6fe06f8b7fdbfb1b2f01576ed4901767fadd740a5b4ccb72ec0ad9b35e29d1";
  "0x7da99f9a2621bb6f330c7ca4040e1fd009c71edaf7aa0937aba5a3d0974abe66";
  "0xd81aa645822d0cf9d4d05e00bf8f2d098e1f6f8d32b8cb687d64eff5498c11cf";
  "0x5d55d5313ab4768eb512510d02bd3a23e8155821f86edfaf0b74d8596554b9fb";
  "0x127688999f47d75aba54d8aaeb180fd436e0da0e43377a7b8d69f19eb4578a99";
  "0x49c37d4adca011452b1d57fb6909bbca8fea4c21024266a288169f0afc4b51c7";
  "0x0829b7097e64c7d36432585998e07e3ffa3efe7fab14bcd65d7ab57fc368cef4";
  "0xc66691853c8e8b39081307b5f3f2dc7e3093dfa16675d7918ee4375a6a438c7f";
  "0xa5d2f7d5653ca14a7a6aeafd72a8616c67c1dc06a8d1b542441e1a8c4c66b698";
  "0x0d29226859dfc67e625524722a710010078dcee30f419e9135cf37e5f62ad992";
  "0x093dee0ec967dc27be52ef2a5075de189fb86c1d9ac8a323a21ed28322c484cf";
  "0x6d251a4c5c4061c45bbd84df341fe13c38781a376477c3faf87ec01affbc17da";
  "0x2ce0089d7f7fa183dfdbddd0f9b955515afab0da8200b9b3f54f98c0e1c508e3";
  "0x12ccde5e31fb4a95e7c4f772b1327df6478c3eb418a92d71c83a022a7e5befdf";
  "0x2e95b6e06eb044930de208688405d124d6128441cce19f26a85bbecf3e535f59";
  "0x9f1e600123f94ace5ce28be6162b4aba7d553e38528f730467842bdf540d9ae0";
  "0x4e495029d169549625d582fd01e19c04cc09a73fda551815b667156c3498d952";
  "0xb49fc99bcc07067f537986c573c4d86d338461cb46180cedf3419bc64bd245b7";
  "0xbfe59e3c21596612388930a1ce40a41e6a4e9bd66cdf8835f3c6f2372b319900";
  "0x80596ce3db698182addf4955e353c04915f6bffacebd1165fac1daeaada1bed7";
  "0x56fb2cf7d4213cf2a52d1aa3cf7b8accdd7be4c4c12a27b52e1eac576b3d750d";
  "0xd73ff73d7f2ee5d1d918ebbbae3281b4af586b20d57de01fa452228d07759f89";
  "0xbe751235776e44b6b2ca4c5a9e0c1d4313e87fcf24c1dec784303dc674dac2d3";
  "0x3a8c195c8ffb62a6aabf57f1f37841548d1251368a7e891d04c758aae1bdedea";
  "0xc8a2e605347e0585ba927a265c3624e60687f0d2e275301ed21a0b0422160cb1";
  "0xf055778b054a2c38010fbc2848d6c62e9dee1966251bbfbf1573ddb1f2558c1b";
  "0x5164d08bffbae85dc69385d9c575ca7d069c90d48a3f41c71ea2e4263dbd93a4";
  "0x4bb899829e70934f6e6159603961c875b9221a036cd87c4666b9623cd8e8dc9a";
  "0x5aaa12de101f9b75dd4ec9612d99993c6079773cb4cc8a5fb6c21d7b6b25b11c";
  "0x21fb36a20a703a33bc28729a392ccbd5ff2aa381afcdb1afd5bdacb811728470";
  "0x65f78557fb13e016275b55b82dad5b628edd314916be6d229c413de8b49e9c72";
  "0x29e1fdc6cf8e39ead737f611311acd9581edbf470fd52633f603cd9ca020ec33";
  "0xc1debe1a4bcb0e681cdb0a6eb0cad253a62f237aa28d4f84129eb0f5858390cd";
  "0x501fc27dbd0a0ee01febae389cc828b658f26e9a2d0777a9509dfb98c5413b27";
  "0xe2fa623b227fe49614a8d0b02d8d132f36a0f65c485c5338fce3368b32a8c142";
  "0xb94f6b71bbda55bd3c28323733b7aa0ab286e8cbd07dd1c2f3f8895776983ae7";
  "0x0776205dc04fcd110106a7d4953a60df1fa396ab0f8c29f9f383af9c5be8479b";
  "0xa22ba1151ba0422b275bc78b1c449938c420c3c6bbbecf676ac10f295cbab5cd";
  "0x6df23542b7d2a3cd1b26e34ad76764f8ff93cfcd049e25df4faa2d5cb62ffa4a";
  "0x006c22a7bc81aa8323ef4841b5e6eefa3b6265b53f00b61c5ed943f996cda021";
  "0xe28706353dda1830f7235c94e46908ad08ae10709f1b2d852321c77bdc8ca089";
  "0xec2b4fb121d080f837ec1b7619cbbf9d85b784f5dffb6979c4775975f362877a";
  "0xecfebe212b478a33b84cdbda8a106eddbac475230c6de4f82c6255a4cfe3bc07";
  "0x5d6bb875005956387738a3183a11c6fd2bf4a6cd6d1e2491fd2c6569e675fd03";
  "0x3f077a84f442a8b62320981a3d5c14892f3e387f97a179f3db7ca145dfbdfd40";
  "0x7dfb7c61db29c381c945dc2313462413280e7f4d800bb381886816197c32c7aa";
  "0x636add65634c9c452934e46b1d722b9128c2b59fcf9e4214990c70e9e5438ad1";
  "0x9204e1ffa5d9ca50986dbe3bed13994800ed11a76c51f8cf642ea880bb441ccb";
  "0x31d32cf370e30dc1fec91e616885221791d58e63ee5a15bc9c318cc7c5256402";
  "0x505efefebb226534f0046969eb57359909f8ec2145a16f6ba009371df2734b2b";
  "0x61f524c31841e8e6ff7ad3ae16f4162b568d77ec966c3fd2b3b2a466ccbb48f6";
  "0x0e7ca5c40aebc5d913f50a03c3dbd4bc24ee99e91efb9c1729588e1749475d91";
  "0x5f2c68f3f46b697ca4f22b7ea79df7522cccc96eed5b70a2d9f08bc372eb61f2";
  "0xfc6216b461b2b037408d805d86b22843b4553f1aef7e8acd0355b87eb8967b2e";
  "0xdccf535e83c067d7f1aab694b57f2c72895e89e772ce66b8702e59c7ec9a78fa";
  "0x107b093fa1c5534c9e4672b907a200d0dd1950ff855fa941e3069f669392fab6";
  "0x009344adab32cb28a110db25256d45bb177491eb0d75a4592a1830ed7e464643";
  "0x4b07c6199ce82823ac5b8463a7dae2e91680d6855df8ffe362d4703e6ccf0c82";
  "0x0b9cc54a3c6603d9c1811ac279cd5c4829c7046294341dd825e6075f4bfbaddd";
  "0xbecedc1520e0b11eaf625a0de4b1f645996dc8bf7446029ab8a82bbfc089eb59";
  "0x85328ac5ca882269b44e27030df780322e4bbe115ea9b25de404ec99f24ce572";
  "0x34848eac444746d268ecca75b352bc5e7b278f0cb6c6a48cb159de2586d04957";
  "0x4d694772918b0501cad89fa1b66b60f6a2f5111658fa9a7c11f8d77185300ddf";
  "0x3ac9372eee40ed85645a6bc506fa0254e3ffca3998c0912b6fa8a6deacf16935";
  "0x00401fa98e36e85da3f5f3df709aca6c30350b2e87dfc18b37d63576c6759c1b";
  "0x90a49e41b8a6db2cfde112069e22c7eab419733d2b81f503f1fbfec5da4053ee";
  "0xa3e0de1a5d7dbf314069c6e80d85744dc466d380af599063ec11054028ac4586";
  "0x17e95cb4f4ea5dc7cdc3829a4e284febcd9599dfc22feed62445a1f634993e26";
  "0x438a764b4baec34d5de69023f3224a83784d64f04e6e7f044f50f359609cd67c";
  "0xdb8f288df068a99893e822bfe2e8b9fbb074dae78ce4179e5746297fb66a7c3a";
  "0xac0e93cea8bee92ddfd505a56c80bb43b71bfd10698d3d7088e20a843dfff63e";
  "0x4dc4e736aed00ddf409bc539b028711fd457bc56e78de0702feb56213213ffae";
  "0xc32e463db939e8ec5b37bceb1b168c4e274d98a1536aa6caefc4d4ab7add6fda";
  "0xda48dc94e293efc7ac5ca42df4c486830dcdf7c3f4350a2f02ae6338efd15953";
  "0x9730f1be423bb3fb24bcfb29defe43278d6aa8639dea04edc4463f41c4bab559";
  "0x1d1c57411aa24a664e4a8c3b07a8c13cc63119b55651b38551a889aeba5e07cd";
  "0xd3fbedd8b4af83e7cfc7d4e6e5cb6533384735c256029d16a5fd93b4f7f48fd2";
  "0x999c33ff237eab850203ac5feda2e21d15be70d8879eaeac0093045393b4f187";
  "0x82f6fe34df24b8099f1cbbf10bf8212c2489d8da38ac326be8430449def7bb29";
  "0xdd5f201f08e613f188bde35f924a8f9956b503cbf0c9bc1352ab3b36bb09165c";
  "0xb4f5e3c56a09a0ae3ed9615314023c88e40b47a5c214a199b148959fa867d162";
  "0x16366ad8d21d0190802c80cc20f53ec35581ad16498049c1be9de9db14e9084c";
  "0xcdd5a3316db42fb053eb60a6ae96d7ad2eb59649a4c7bdc4175b1ae3ab05f99a";
  "0x5b0a82484421c3f15cb82dca47a86f443b306dd0b8c7d91be9beca02858dc742";
  "0xbbd7ddca9dd72af91f408e7e7008b43f295dae37c77adc6cfb3af4510959762c";
  "0xdd7e5f1f3bb825ce019f7d1ad5a80b2f68001ea65bd391d3eaa80d39011c745d";
  "0xd331a67194327329a492a5ae987b9673d36bbeebaa3672c8996d41e9a59f9f4b";
  "0xb99e08fdef4561960ecef9b094ac63c6026310d00637c6cb956d49467ed6a645";
  "0xaa656bdddd5135cd9fc9bc027ad4548c7b9746781ec13ed5da5569a3f66a1ef8";
  "0x01ebd7e0dad0c374e55d101494ea55f493c5c564104c662b6a593ca32fa60ad4";
  "0xd828647afcfb16622410faf46528f04c93c4d8de85d07f16ac3ceb3b3f95e195";
  "0xad030a901c15b8b176c9e304383a7b69e5bd902b12ed1c710547626586677f82";
  "0xb5d36035b78762d0ef268b18cdafe76606f19f9ba8fc64f4d8f9ac84df7e8697";
  "0x77f7989ccf1528d3049facd8269ccad1b31200546b9f18f0058a76586ad2257d";
  "0xbb952c6c79fbc7928c50270cc3c9010c71f3726badbaec1a2470693bdf23db13";
  "0xed5ad38b829d5b0098b79d338255de6a90acd60f1f72401076da89c219a063e0";
  "0xd5e3b63f6d1255225fe1de22152bcc775d10a2e211c0965a880226b48526c093";
  "0x5e8a532b7cc07847c428b62b79def81572fa2ed9c32544e4398fc3eb0437cc5e";
  "0x467e535642a28b8c56ad7cc9c77a28e95a24efc69a0f9e276c42ae382302d08e";
  "0x444299992f6c7db16ffb54a450ab1f18bc05eb93eb86cff12f166019252901bd";
  "0xbf5d1957155e271159ce7b3c866918f5afe0e5d56aa63e02e39935f8e0e668e7";
  "0xdb28b5385e96cde077e187b39df905eaf884d034910f6b8062984428f0e13838";
  "0xb5fd3c31852db20b7423e98c93ede7fb07d315b54627b382fa4a20122c236478";
  "0x7aa2b718084b542d1a0399fb02b9742447d9642aa7ec01527cd9b5d400c7f63a";
  "0x899e4286a014ff1cd9a00f95b5f02823ec64d35dde4961b5032b27a9e0918883";
  "0x361c80fa06cd2647cedf5531c1d64c305f913a6161044716fe4190516ec3081c";
  "0x27e108694a0254af878e9b6399bce3e70e9231eab687dd471aabf13345b14b19";
  "0x6a62ac86180d5b9181f6f152fad3c53582bec13e304a7de2668d5ae82819b750";
  "0x8b88c7ec8b123ccd1200a5941f08b4fd565a7899d35c170b677e0e04578e8c1e";
  "0x455ddd7ef97ec45a1c820422deb54a14e36163d2296672c1b3b7d27fbb2da488";
  "0xf9ba8c55216377e3c764c96e339c6dc64527c0eebd107060f41ec70682aab41a";
  "0x912838e937c2c9e34f95023e1a91b22295a9fd209cc3e860c9d7a3096c4b1ba2";
  "0xa492cef26f358c924b847605d95790ca9e641fefbdec6d6fa806aade8fd02ba4";
  "0x55ec949d69d952b04c900f1e5e0ba1aab99c7258b171211b4d99b2f40a071615";
  "0x621a7c46f222aad941551ef61e9aa4ca3e44783373d58727f06ef10c281a07e8";
  "0x7c262d240afbf4619971defefd7e3c36e273e594da8efb65bad9d33746ce2641";
  "0x45d34929beec87380d161289e4b0b98467e690a001c6203b35f89d8d625b61fc";
  "0x81bc17875ef16e520f65d81ffc77dd36ec73c21ba1373fe4efa1197e42e8e052";
  "0x7fb4077dc8e1c483627d807b6f4fd06f8307b5a5eaf0645d6e7bff4c7867abfe";
  "0x70952b334095f0b0f441a878118fe177bc02c65c8700080205a40ae0d2ec18ea";
  "0x24dc7f96dae6cf25fc1e338fd6cbbb0aab4a989e142449bd31137127d2631361";
  "0xa840ff38ec35d4962a05224dd8f14dc833b99de34d19e670841f763d1598b92f";
  "0x794884e89533f8997aff72cb86c9f15dfc7ccffd44295d9c85b48f79787aa73c";
  "0xd5c57ac01bdb11fd39c6e0b99423245e115a6f01f7b052d14fef563dd76bbe20";
  "0x470f9169e8a1b9dfa1f5e67352d309812e73288bb62b1fead6a41370ff9768fd";
  "0x9acd19c42a9fdd8491da549142e91f4856651750dee86323094e53062cc2d8a4";
  "0x2e4d3aa8a340527bf0a41a2cb77161bb8a47f466c3d33ae8eee98ed033b03849";
  "0x3ab8ad7c49ea6724285f68b359f9f4fc57ceb157ecbf8b192fbaafe81080d285";
  "0xa859a3ccf6f614eb4021f944c7b921a24182613ab0a439eeaefa4586e6aa0236";
  "0x2131ff15038c7a3a81777e0e8bf0733056ae7c2387851d7ea531bf3daa4ce50a";
  "0xf9eb8746cbbcf7d81c51d528aa274b5e9d27978bd128c22663b2047cbe195c73";
  "0x9c21fce1a908545e8b2f04f63c7a8b6996e27f3f34b23bbdbc07798f8aad79ff";
  "0x242f41a719816baba345d45885f9e6f1fa7237607b9a7af504129fabfcd68dd6";
  "0x1d242decb5a4b814bc177ac319325f7cc15c8a1f846a93d9b8f32f7832cfb64f";
  "0x11f953651801f6a8e17a6acd597b66d6ccc6404115f0d7a48e0271fdb3012699";
  "0x13bd51c0becfa513e8f0fbe88b57fe41156a9376c67417daeb8d71138dc397e0";
  "0x4fc7bc1c4834defb1b8ece3690433e1496e72647d70fcb2d0eb19f13b1521e72";
  "0x015c74598878b4fc11ce414c7460cdc3bf0fdd21884e05a9e13969dca251f771";
  "0x4d8ff34926cd6685dc52a85a740f07b189f2e79f5847f192b139c01afd7fbb9c";
  "0x8d194a633d850da194fdd700073847922a4622ec8a332fc7dfef15b0be23cf90";
  "0x14cdf8fa0bc39a355726d64eaad00af892d1a9937a76365af878d99c6578fa29";
  "0x727172556ff31a12bbf864b9ae8dbc970bd496762a5705ea4939dfcc0c0ccd14";
  "0x283930de85a1e85697ca4517e7055dc7dbfb43975837fc2cd16e538136e1c23b";
  "0xc9b78ee26f020d48dff7a090962b23e0c7b5559369ac9173b3d4d8fe12760ee5";
  "0x852b9d6046b4b2354de2aa87a03d1a78635c1f645d5d73a266bd3056aa6180d5";
  "0x16762314fd7c4c3af47088103743af7782e24272d1aa21abe83ef806328fcf20";
  "0xb8ba12f814705bd449fb96df9894972dd6238dd92ab55bb7ff96f76757e72fc9";
  "0xa62fb534eff5598c3431dc803c11a59546de5b52a7c5673467b122fae98187cc";
  "0xa1ad5c9f0b0a5c64f7938714e154c3debfd7438ba069eccad97bc4d511921e6e";
  "0x3ce1e7be38dea17527c6c6a40965538742a074496de999c4d6cb0d3d6e55f36b";
  "0x974a505878acaeae7e0b298a45118e5ad56f2d16853fea7cdb151f0715f29910";
  "0xfdf533005fcaa58f663c9d388d610e82c2a320a38116ab89c4a1edc5b650228f";
  "0x50da7109f228e58f2784ff4af4b0478075a7bb1d6100d58a133291cc89255471";
  "0x168a9c1ece253d5fd1c81d5c350b759c99e6eb3cbf8bcd9b913f2aac416c6bce";
  "0xb8c6ae753c2484167eca32dc57389b8b7e3b5e88c982ec41d0fa820eaf131576";
  "0x7cb81dbe6ce687b89104c5c4317844d8d966e17fc51f0851a771963d598eb7c1";
  "0xec0065cdfb97d5a3cc735b7e30e80f9325ea8e58676b8cb66666fcfd5c9d3e0d";
  "0x4cf029dd9750ccc21b26f95a588954a69866158c5979e0a364abf1fd6ceae265";
  "0x929901cfa5f0d88ebe529a258cfa05915045df796f06f8e68ed514d7af91d87b";
  "0xb0b11f437da8bc85dfb00454102b7f42190110141e564abed8342921ea63186a";
  "0x80e218d9ad8c1d6a2f546a13826043ead05c2596c4eb9399850c50c70ee1a398";
  "0x4e6dc3d3c380d8b867d0af85fe94e1754069ad18e1e69f763cf29326dcda1698";
  "0x625f0598aa5633860d516af1ab0b8993dfc86823451ebb8df3c5df3a7765953d";
  "0xfa3d7e9efa78e628b7109d0c7d730057153cd519b07978deee1e43e959ddbfeb";
  "0x854c19e049c3afb443d0b4368c453d8716311d283daff077acc41c54fa6e8d0e";
  "0x199716858f7ce1eff9e3629e2de248a503c6b724b44bfa63b64edcf19d38a119";
  "0x8410d63daae614aa4fa3c0e9f4d2f7da5641087179d35e6c96ffd66b5724f490";
  "0x267ff909220ef07a23ed3eb82025e0dff325b5a8abdafc3099842c71868d4663";
  "0x4229952d05a3924e5ceb052668aa5a1453ac224bb71fc64ea7ab3ea8e75af0d4";
  "0x4801388980d9cab4cc72f16d4cf4128aadcee43d93b60b9be0ee722fdc64c801";
  "0xde08a6f43ac5dac1a2b6f2dfcea4ae10fa40c75d895d1360fbd88478d188d2b3";
  "0x85504f37e132914499a4c350bc11b876d14de2c1715965475534651c2f815ec1";
  "0x2ea9729efaa057bedddfd8fed34c41d5da05c8f54a4d04bf5aa30ba5a3f3b05e";
  "0x54a50bb40d1369320d303191914244f4c083acbf8ee195037ecf2e2157f51390";
  "0xcb4e5de237025a0d18e1aacc818ae0eb88d01e13cd0c28315985a2c7d75ecaf5";
  "0xd5032580018d6828457c56113959a2d48a1d4b1484e6b84cdd48000df53ce838";
  "0x0683119e136ba9af7b1b9091e517462b8021f3fb912c00c331f04eae4a94c511";
  "0x5c94b9c30c6ab66e402ced1bb5bb86fb6e9391ead062fda2ca7fc409c47331b3";
  "0x231e6a27d8e93ba2930a70747da599526a001aa944bf6a130180ec2ed7a0502e";
  "0x641e5d85aa4f7feff25e87dd792b9cc2dca3be80d502c109877918319b7104e9";
  "0xa78ae4f626c87e872e6806d46a3a69f6adf30d95fd113c4e262b4ff920cb4a0c";
  "0xa39ff010749c71076e847a364649a5b90c84ed02717e1fec9d8ca90796ef4422";
  "0x18188f22b33f0ccee4c9aa33100e6e81e6cb4f66d2acdcafbef6ce38e3cfcf5a";
  "0xcf978ffe6f0f846a4b58a2443df33e26f5d3ac397811416e9b33f3f0186db300";
  "0x4ff39b891ba7c53a19df628f178390d4270bc219822b5f720cf16c64eff73345";
  "0x5d8a56ac076eca2ce269a7c74fa29dfbdda95f19a38302fc02e726b9a4f4bc16";
  "0xf5ce9d605428bcd22f77425f3d81b324aafd50692b6c84a3bb8998e3a709d431";
  "0xac48cf3541d1ca2c21b539d7959f7fe38b86d02570b0ef5d18d41ad736a43ff3";
  "0xbc643f435efb57c17d47b097eb6c2b65219c6419cae70249bf4829fc657cd8f1";
  "0x4bf8bf2b87e0b17233e959e57b89d92378545af394fa16972e98506320c0db6a";
  "0x92be41e4431520952dab6be7fb0f8daa206eb57a69fb8bc6f993b94a25af61e7";
  "0x4582198b4a38e31a37608054dbacf7454a8f7fb925f032500079fe8a1e2a9af7";
  "0xf561abb71675c899bfd977b307356314fb473abfe862b05f862dec00ee1c5812";
  "0x67b434710950cab6b199ce0ea977ff57a4a5822d758bb8bb45dc553e5129db72";
  "0xfd780478a407d506b2ae25115fb193399ab4df51adf9744e61a88741bf252071";
  "0x8f6f597d1e4d647973a28233966167aeda228e5941421b90934d967f1721f613";
  "0xedbca35d3dafa4c89c8278f9478f7f3276686dde098f14f98b58d30321b47a3f";
  "0x9cf405bd634d0eb156b5265e019ffae5ed21023389f8c0ee6738632a0171baa6";
  "0xcd6779309f4d78f57e36612ad7e354d1611ad5789cafe7519550cb9a6946831d";
  "0xd54b008e224a4350702d10e30775304be26937f9f34b31149ab695dd01cb92c0";
  "0xe211b685f17b35d26c3ac62acb177729e50c4015099c70c35d9e4457500b48fb";
  "0xd47b4b03edae4536be611f76e995ed96f1a99096f1f9a2247d9e55e1628cc451";
  "0x930d280d655e4ebaffee9fe1aa437268f7431087c4257a289467ddcea5be8c47";
  "0x98579543e0ca4359b2fce2dcb818fc599866f820e0c6a734ed1eba620edcad2f";
  "0xc614e8357315052c41da505d656da985527bd2c9d8479673cfb59387e5840717";
  "0xd3823c7c7be3155cb16457714c052f4c458e689eccd30b6214c6a1e53b2248ce";
  "0xeb252d217d184ac4b6278d5692f5abf1d70bbf03e3f3a45b3caaa39617c24a94";
  "0x53df76e2e046aa9c5a2cf365cec5d350488d2ffa7b8ffb9e4dec3ea9a9b28bf3";
  "0x619b5680eee489aeae7dd9e750ec15db4a7e76de89203911cba02e3e5c5b77aa";
  "0x05742694a970c9c244f1c1ef96f81cde46db8a2f1510a76b4e3b44013a85faee";
  "0x3a1462a17e725e52dff5433f3bc791e381dbad155fc38548cf320e93bee2971c";
  "0x403b6a691e3bd44625f0b983b7ffd6d611dd7cfc60724b269f22703be965de0d";
  "0xa6a067aa9d4798fddac30748ab4a169ef9b389f29e538fe4d6670dd4279fa8a1";
  "0x47671e171cd865569eea1cc09f6c40d8577b02a13afc1648d87f7d7cf5ca0fe3";
  "0xf7f06e6bb039634833625fc5a8c39e794ba89acba4a06dfc4ecb7e85c242af8f";
  "0x350aa2262dc0cabaee85985d99a1a1510a4429ac5f68e03a238799e52f98359e";
  "0x13f84a2cb5002d65220cec437ab89377fc445d993695cc149e9529193a325c03";
  "0x79f87db8982beeb3979e75752cccddb606cd3af2ce6af846a600935f5c72a87e";
  "0x8d4a14a6b986890a6277aef74ede8a7350e88448cebbbdf9a4cbd060785a1e7e";
  "0xa8bfaabd23b0d0cd36cc5d4f657ff07e83c234db3adf29eba04f8b8d769edd82";
  "0xfd87b4af20e95251b29c57dead269ec940987360ce283fc9d96b095c1f2add32";
  "0x8ed4627c91957184e2e704844e08b1ebcbc7cfd22ac936ef6678368c5be2ade0";
  "0x52f59851ab7591878ea4cfb3e9aad47fe67ff069669e6df088018fa355431e51";
  "0x2b86b367a0bef45695f00f22dcfc61fece33b7ac5e18fe13c85fc767fcf0caab";
  "0x83ce320fa30ad5e69497227655af987ad96121a2a467c950faa59f1d88384077";
  "0x13ce634c2849b6e66aefe727c0ce245e4e34fdb540970139e8bb355598c256c7";
  "0x2ca1f1578a26c114f6cdd4f5cd4670eea1afa235cf8b146cc11f75944aa8a240";
  "0x7c15bb884987a4b5e916234e149ea7cb47987b6c562ce9bfffa81341ed35384d";
  "0xd164a73658dbb5781a55803a1859e4ac41ed6b75dbe4dead76b40e8754ded4a2";
  "0xfa4f52cda11d0bcbdac2dd3784dbc9715da8e1334a1b63342a86aac0454e8446";
  "0x2fa7a1fbe777a856ec0a7acad06a3e4edbeacc0453501ff2e311f979cd926bc6";
  "0xf6065d4f6de608671970c2f47ecd5fa6cfd4a7089dbf5ea3e1d23bfe31903dd0";
  "0x874a6e7284c76074ce187306da1fdb5d04273957e3b47f9aa886fa35bcff7c9f";
  "0x1538134621c5b2c104ff8e31146bba374310acfd0258ade039cd7ec974e46c09";
  "0x8cf754c64a9506856ad39d75c3ed8cd19c9b8e199c6823dbff6e71aeb01ca643";
  "0x6ba4655974f7f404e95be0c48e23127f34abdb29a8ab1dc94838c8c5eac79253";
  "0x9eb07b7f4b3b5455e432aedfeb22a2fbd9e1706e75e14fb5e8673f5a030ab06a";
  "0xf0aeaeaf94e6816c5617f5eb0a2a43c8cf144f7b548a9bde39862486bf91ef91";
  "0xb9528a70f6c9c99e47230451eae69ce6a1f2332a1726165e1341f0b557f5bc59";
  "0x1b570caed4885864d97eac77887104315363516939f4821f313c976a8bb337fa";
  "0x61471eaa79fdc2d4ca62f5d4865554116048d1ee789be57bd41a2374eb08ce2e";
  "0x2efbf228a172764685cc94810db1a23f12dda7b88439a10532331054a4f2954b";
  "0xabfbe169e534bbca03bfc47c1c07eb5a07d407bc26b111d7abbdaf2b9cefc72f";
  "0x99090a29736a99e77f4d6f8657267d8974a605ec782fa2492b8db557caa68c7e";
  "0x2f34c9b455462bb3a4ffb65ea87244e714c1f86ec497ea4f19927f71640a60e7"
].

Local Close Scope string_scope.

Section FakeKey.

(** A [*ecdsa.PrivateKey]. *)
Variable PrivateKey : Type.

(** [crypto.ToECDSA(hexutil.MustDecode(s))] with the error of [ToECDSA]
    dropped, both from outside these sources: [None] is a panic of
    [MustDecode]. *)
Variable toECDSA : String.string -> option PrivateKey.

(** [FakeKey(n)] for a [uint32] [n]; [None] is a panic: that of the range
    check, of an index out of range, or of [MustDecode]. *)
Definition FakeKey (n : Z) : option PrivateKey :=
  if (n =? 0) || (Z.of_nat (List.length keys) <? n) then None
  else
    key ← keys !! Z.to_nat (Go.uint32 (n - 1));
    toECDSA key.

End FakeKey.

(** *** The fake genesis *)

Section Genesis.

(** [common.Hash], [common.Address] and the values of [error]. *)
Variables Hash Address Error : Type.

(** [types.EmptyRootHash]. *)
Variable EmptyRootHash : Hash.

(** The calls made on the state database, in the order they are made. *)
Inductive Call : Type :=
| SetBalance (acc : Address) (balance : Z)
| Commit (clean : bool)
| TrieCommit (root : Hash) (report : bool)
| TrieCap (limit : Z).

(** What the database answers, given the calls made so far:
    [statedb.Commit] a root and an error, [TrieDB().Commit] and
    [TrieDB().Cap] an error; [None] is [nil]. *)
Variable commitAnswer : list Call -> bool -> Hash * option Error.
Variable trieCommitAnswer : list Call -> Hash -> option Error.
Variable trieCapAnswer : list Call -> option Error.

(** The fields [genesisBlock] sets; the others keep their zero value. *)
Record EvmBlock : Type := {
  Number : Z;
  Time : inter.Timestamp;
  GasLimit : Z;
  Root : Hash;
  TxHash : Hash
}.

(** [flush], from the calls made so far to the calls made after it and
    its two named results. *)
Definition flush (calls : list Call) (clean : bool)
  : list Call * (Hash * option Error) :=
  let '(root, err) := commitAnswer calls clean in
  let calls := calls ++ [Commit clean] in
  match err with
  | Some _ => (calls, (root, err))
  | None =>
      let err := trieCommitAnswer calls root in
      let calls := calls ++ [TrieCommit root false] in
      match err with
      | Some _ => (calls, (root, err))
      | None =>
          if negb clean
          then (calls ++ [TrieCap 0], (root, trieCapAnswer calls))
          else (calls, (root, err))
      end
  end.

(** [genesisBlock]: [math.MaxUint64] is [2^64 - 1]. *)
Definition genesisBlock (time : inter.Timestamp) (root : Hash) : EvmBlock :=
  {| Number := 0;
     Time := time;
     GasLimit := 2 ^ 64 - 1;
     Root := root;
     TxHash := EmptyRootHash |}.

(** [ApplyFakeGenesis]; [balances] lists the entries of the map in the
    order the [range] loop visits them. *)
Definition ApplyFakeGenesis (calls : list Call) (time : inter.Timestamp)
           (balances : list (Address * Z))
  : list Call * (option EvmBlock * option Error) :=
  let calls := calls ++ map (fun ab => SetBalance (fst ab) (snd ab)) balances in
  (* initial block *)
  let '(calls, (root, err)) := flush calls true in
  match err with
  | Some _ => (calls, (None, err))
  | None => (calls, (Some (genesisBlock time root), None))
  end.

End Genesis.

(** *** Vocabulary for the table's entries *)

(** The value of a hexadecimal digit. *)
Definition hexDigit (c : Ascii.ascii) : option Z :=
  let n := Z.of_N (Ascii.N_of_ascii c) in
  if (48 <=? n) && (n <=? 57) then Some (n - 48)
  else if (97 <=? n) && (n <=? 102) then Some (n - 87)
  else if (65 <=? n) && (n <=? 70) then Some (n - 55)
  else None.

(** The number written by a string of hexadecimal digits, most
    significant first, continuing from [acc]. *)
Fixpoint hexValue (acc : Z) (s : String.string) : option Z :=
  match s with
  | String.EmptyString => Some acc
  | String.String c rest =>
      match hexDigit c with
      | Some d => hexValue (16 * acc + d) rest
      | None => None
      end
  end.

(** The 256-bit number a key string denotes: [0x] followed by exactly 64
    hexadecimal digits (32 bytes). *)
Definition keyScalar (s : String.string) : option Z :=
  match s with
  | String.String "0"%char (String.String "x"%char body) =>
      if (String.length body =? 64)%nat then hexValue 0 body else None
  | _ => None
  end.

(** The order of the group of the curve secp256k1. *)
Definition secp256k1N : Z :=
  0xFFFFFFFFFFFFFFFFFFFFFFFFFFFFFFFEBAAEDCE6AF48A03BBFD25E8CD0364141.

Definition validKey (s : String.string) : bool :=
  match keyScalar s with
  | Some d => (0 <? d) && (d <? secp256k1N)
  | None => false
  end.

(** Whether no string occurs twice. *)
Fixpoint occurs (s : String.string) (l : list String.string) : bool :=
  match l with
  | [] => false
  | x :: rest => String.eqb s x || occurs s rest
  end.

Fixpoint distinct (l : list String.string) : bool :=
  match l with
  | [] => true
  | x :: rest => negb (occurs x rest) && distinct rest
  end.

End evmcore.

(** ** Sample states *)

(** On amd64 the conversion of a float without [int64] value yields the
    smallest [int64]. *)
Definition amd64 : spec_float -> Z := fun _ => Go.MinInt64.

(** A stand-in for the tables of [piecefuncs.go]: the identity capped at
    [DecimalUnit]. *)
Definition capped : Z -> Z := fun x => Z.min x piecefunc.DecimalUnit.

Definition sampleValidators : pos.Validators :=
  {| pos.entries := [(1, 600); (2, 300); (3, 100)] |}.

Definition sampleStart : time.Time := 1700000000 * time.Second.

(** Validator 2, last emission and last idle moment at [sampleStart], no
    block since, work pending. *)
Definition sampleEmitter : Emitter :=
  {| config := {| Validator_ID := 2;
                  EmergencyThreshold := 1000;
                  NoTxsThreshold := 5000 |};
     world := {| LatestBlockIndex := 100;
                 BlockMissedSlack := 50;
                 locked := false |};
     validators := sampleValidators;
     stakeRatio := {[ 1 := 0; 2 := 600000; 3 := 900000 ]};
     intervals := {| Min := 110 * time.Millisecond;
                     Confirming := 170 * time.Millisecond;
                     Max := 600 * time.Second |};
     prevEmittedAtTime := sampleStart;
     prevIdleTime := sampleStart;
     prevEmittedAtBlock := 100;
     noPendingWork := false |}.

(** The same emitter with no pending work. *)
Definition sampleIdleEmitter : Emitter :=
  {| config := config sampleEmitter;
     world := world sampleEmitter;
     validators := validators sampleEmitter;
     stakeRatio := stakeRatio sampleEmitter;
     intervals := intervals sampleEmitter;
     prevEmittedAtTime := prevEmittedAtTime sampleEmitter;
     prevIdleTime := prevIdleTime sampleEmitter;
     prevEmittedAtBlock := prevEmittedAtBlock sampleEmitter;
     noPendingWork := true |}.

(** An event of validator 2 created [after] nanoseconds past
    [sampleStart] with [gas] left in both windows. *)
Definition sampleEvent (after gas : Z) : inter.Event :=
  {| inter.CreationTime := sampleStart + after;
     inter.Creator := 2;
     inter.GasPowerLeft := {| inter.Gas := (gas, gas) |} |}.

(** Fifty-one validator ids, 1 to 51, in stake order. *)
Definition manyIDs : list idx.ValidatorID := map Z.of_nat (seq 1 51).

(** A stand-in table with a slope: a quarter of its argument, capped at
    [DecimalUnit]. *)
Definition quarter : Z -> Z := fun x => Z.min (x / 4) piecefunc.DecimalUnit.

(** * Properties *)

(** ** Machine integers *)

Lemma uint64_small (x : Z) : 0 <= x < 2 ^ 64 -> Go.uint64 x = x.
Proof. intros H. unfold Go.uint64. apply Z.mod_small. exact H. Qed.

Lemma uint64_range (x : Z) : 0 <= Go.uint64 x < 2 ^ 64.
Proof. unfold Go.uint64. apply Z.mod_pos_bound. lia. Qed.

Lemma int64_small (x : Z) : - 2 ^ 63 <= x < 2 ^ 63 -> Go.int64 x = x.
Proof.
  intros H. unfold Go.int64.
  rewrite Z.mod_small by lia. lia.
Qed.

Lemma int64_range (x : Z) : - 2 ^ 63 <= Go.int64 x < 2 ^ 63.
Proof.
  unfold Go.int64.
  pose proof (Z.mod_pos_bound (x + 2 ^ 63) (2 ^ 64)). lia.
Qed.

Lemma Sub_range (t u : Z) : Go.MinInt64 <= time.Sub t u <= Go.MaxInt64.
Proof.
  unfold time.Sub, Go.MinInt64, Go.MaxInt64.
  repeat case_match; lia.
Qed.

Lemma floor0_range (d : Z) :
  Go.MinInt64 <= d <= Go.MaxInt64 -> 0 <= floor0 d <= Go.MaxInt64.
Proof.
  unfold floor0, Go.MinInt64, Go.MaxInt64. intros H.
  case_match; lia.
Qed.

(** ** The disabled top-50 gate *)

Lemma supermajority_locals (em : Emitter) (e : inter.Event) (metric : Z) :
  supermajority (locals em e metric) = true.
Proof.
  unfold locals. cbn [supermajority].
  destruct (_ && _); reflexivity.
Qed.

Lemma locals_withValidators (vv : pos.Validators) (em : Emitter)
      (e : inter.Event) (metric : Z) :
  locals (withValidators vv em) e metric = locals em e metric.
Proof.
  unfold locals. cbn [withValidators config world validators
    prevEmittedAtTime prevIdleTime prevEmittedAtBlock].
  f_equal. do 2 destruct (_ && _); reflexivity.
Qed.

(** ** The emergency check decides the result *)

Lemma notEnoughPower_spec (em : Emitter) (e : inter.Event)
      (selfParent : option inter.Event) :
  notEnoughPower em e selfParent = true <-> powerEmergency em e selfParent.
Proof.
  unfold notEnoughPower, powerEmergency.
  destruct (Z.leb_spec (inter.Min (inter.GasPowerLeft e))
                       (EmergencyThreshold (config em))) as [Hle | Hgt].
  - destruct selfParent as [p |].
    + rewrite Z.ltb_lt. split.
      * intros Hlt. split; [exact Hle | exists p; split; [reflexivity | exact Hlt]].
      * intros [_ [q [Hq Hlt]]]. injection Hq as ->. exact Hlt.
    + split; [discriminate |].
      intros [_ [q [Hq _]]]. discriminate.
  - split; [discriminate | intros [Hle _]; lia].
Qed.

Ltac split_ifs :=
  repeat match goal with
         | |- context [if ?b then _ else _] => destruct b
         end.

Lemma isAllowedToEmit_site_cases (u : spec_float -> Z) (em : Emitter)
      (e : inter.Event) (eTxs : bool) (metric : Z)
      (selfParent : option inter.Event) :
  if notEnoughPower em e selfParent
  then isAllowedToEmit_site u em e eTxs metric selfParent = NotEnoughPower
  else returned (isAllowedToEmit_site u em e eTxs metric selfParent) = true.
Proof.
  unfold isAllowedToEmit_site.
  rewrite supermajority_locals.
  destruct (notEnoughPower em e selfParent); [reflexivity |].
  split_ifs; reflexivity.
Qed.

Lemma isAllowedToEmit_negb_notEnoughPower (u : spec_float -> Z) (em : Emitter)
      (e : inter.Event) (eTxs : bool) (metric : Z)
      (selfParent : option inter.Event) :
  isAllowedToEmit u em e eTxs metric selfParent
  = negb (notEnoughPower em e selfParent).
Proof.
  unfold isAllowedToEmit.
  pose proof (isAllowedToEmit_site_cases u em e eTxs metric selfParent) as H.
  destruct (notEnoughPower em e selfParent); [rewrite H; reflexivity | exact H].
Qed.

Lemma emergency_defers (u : spec_float -> Z)
      (em : Emitter) (e : inter.Event) (eTxs : bool) (metric : Z)
      (selfParent : option inter.Event) :
  powerEmergency em e selfParent ->
  isAllowedToEmit u em e eTxs metric selfParent = false.
Proof.
  intros H. apply notEnoughPower_spec in H.
  rewrite isAllowedToEmit_negb_notEnoughPower, H. reflexivity.
Qed.

(** C1: [isAllowedToEmit] returns [false] exactly when the gas-power
    emergency condition holds (gas power at most [EmergencyThreshold], a
    self-parent exists, gas power strictly below the self-parent's), and
    [true] on every other input; line 614 is the only [return] that is
    ever reached with the value [false]. *)
Theorem isAllowedToEmit_false_iff_emergency :
  forall (u : spec_float -> Z) (em : Emitter) (e : inter.Event) (eTxs : bool)
         (metric : Z) (selfParent : option inter.Event),
    (isAllowedToEmit u em e eTxs metric selfParent = false
     <-> powerEmergency em e selfParent)
    /\ (isAllowedToEmit u em e eTxs metric selfParent = true
        <-> ~ powerEmergency em e selfParent)
    /\ (returned (isAllowedToEmit_site u em e eTxs metric selfParent) = false
        <-> isAllowedToEmit_site u em e eTxs metric selfParent = NotEnoughPower).
Proof.
  intros u em e eTxs metric selfParent.
  rewrite isAllowedToEmit_negb_notEnoughPower.
  rewrite <- notEnoughPower_spec.
  pose proof (isAllowedToEmit_site_cases u em e eTxs metric selfParent) as H.
  destruct (notEnoughPower em e selfParent); cbn [negb].
  - rewrite H. cbn [returned]. intuition congruence.
  - repeat split; try congruence.
    intros Hsite. rewrite Hsite in H. discriminate H.
Qed.

Lemma passedTime_blendIdle (em : Emitter) (e : inter.Event) (l : Locals) :
  passedTime (blendIdle em e l) = passedTime l.
Proof. reflexivity. Qed.

(** C2: once [passedTime >= intervals.Max], [isAllowedToEmit] returns
    [true] whatever the metric, the gas power, the passed blocks and the
    idle flags are (the enforcing [return] of line 628 is the one
    reached), except that under the gas-power emergency condition the
    emergency check comes first and the function returns [false]. *)
Theorem isAllowedToEmit_after_Max :
  forall (u : spec_float -> Z) (em : Emitter) (e : inter.Event) (eTxs : bool)
         (metric : Z) (selfParent : option inter.Event),
    Max (intervals em) <= passedTime (locals em e metric) ->
    (powerEmergency em e selfParent ->
     isAllowedToEmit u em e eTxs metric selfParent = false)
    /\ (~ powerEmergency em e selfParent ->
        isAllowedToEmit_site u em e eTxs metric selfParent = EnforcedEmit
        /\ isAllowedToEmit u em e eTxs metric selfParent = true).
Proof.
  intros u em e eTxs metric selfParent Hmax.
  split.
  - intros Hem.
    apply (emergency_defers u em e eTxs metric selfParent).
    exact Hem.
  - intros Hno.
    assert (Hnp : notEnoughPower em e selfParent = false).
    { destruct (notEnoughPower em e selfParent) eqn:E; [| reflexivity].
      apply notEnoughPower_spec in E. contradiction. }
    assert (Hsite : isAllowedToEmit_site u em e eTxs metric selfParent = EnforcedEmit).
    { unfold isAllowedToEmit_site.
      rewrite supermajority_locals, Hnp.
      unfold enforced. rewrite passedTime_blendIdle.
      apply Z.leb_le in Hmax. rewrite Hmax. reflexivity. }
    split; [exact Hsite |].
    unfold isAllowedToEmit. rewrite Hsite. reflexivity.
Qed.


(** C7: the result of [isAllowedToEmit], and the [return] statement it
    reaches, are the same whatever validator set (hence whatever
    [SortedIDs] and whatever value of [isInTop50]) the emitter holds, all
    else being equal; [supermajority] is [true] when it is tested and the
    two [return]s of the other path (lines 673 and 676) are never
    reached. *)
Theorem isAllowedToEmit_ignores_top50 :
  forall (u : spec_float -> Z) (em : Emitter) (vv : pos.Validators)
         (e : inter.Event) (eTxs : bool) (metric : Z)
         (selfParent : option inter.Event),
    isAllowedToEmit u (withValidators vv em) e eTxs metric selfParent
    = isAllowedToEmit u em e eTxs metric selfParent
    /\ isAllowedToEmit_site u (withValidators vv em) e eTxs metric selfParent
       = isAllowedToEmit_site u em e eTxs metric selfParent
    /\ supermajority (locals em e metric) = true
    /\ isAllowedToEmit_site u em e eTxs metric selfParent <> MaxTimePassed
    /\ isAllowedToEmit_site u em e eTxs metric selfParent <> NotSupermajority.
Proof.
  intros u em vv e eTxs metric selfParent.
  assert (Hsite : isAllowedToEmit_site u (withValidators vv em) e eTxs metric selfParent
                  = isAllowedToEmit_site u em e eTxs metric selfParent).
  { unfold isAllowedToEmit_site.
    rewrite locals_withValidators.
    unfold blendIdle, notEnoughPower, enforced, maxBlocks, adjustedEmitInterval,
      lowPowerThreshold, idle, stakeRatioOf.
    cbn [withValidators config world stakeRatio intervals noPendingWork].
    reflexivity. }
  split; [| split; [| split; [| split]]].
  - unfold isAllowedToEmit. rewrite Hsite. reflexivity.
  - exact Hsite.
  - apply supermajority_locals.
  - unfold isAllowedToEmit_site. rewrite supermajority_locals.
    split_ifs; discriminate.
  - unfold isAllowedToEmit_site. rewrite supermajority_locals.
    split_ifs; discriminate.
Qed.

(** ** The progress metric *)

(** C4: whenever [upd <= median] or [upd <= cur], [updMetric] returns
    exactly 0, for every validator index and validator set (neither the
    weight lookup nor the division is reached). *)
Theorem updMetric_no_progress :
  forall (F : Z -> Z) (median cur upd : Z) (validatorIdx : Z)
         (validators : pos.Validators),
    upd <= median \/ upd <= cur ->
    updMetric F median cur upd validatorIdx validators = Some 0.
Proof.
  intros F median cur upd validatorIdx validators H.
  unfold updMetric.
  assert (Hb : (upd <=? median) || (upd <=? cur) = true).
  { apply orb_true_iff. rewrite !Z.leb_le. exact H. }
  rewrite Hb. reflexivity.
Qed.

Lemma kickStartMetric_late (metric seq : Z) :
  2 < seq -> kickStartMetric metric seq = metric.
Proof.
  intros Hseq. unfold kickStartMetric.
  assert (H2 : (seq <=? 2) = false) by (apply Z.leb_gt; lia).
  assert (H1 : (seq <=? 1) = false) by (apply Z.leb_gt; lia).
  rewrite H2, H1. reflexivity.
Qed.

(** C8: for a sequence number above 2, [eventMetric raw seq] is the
    piecewise transform [eventMetricF raw] alone: [kickStartMetric] is
    the identity there. *)
Theorem eventMetric_without_kickstart :
  forall (F : Z -> Z) (raw seq : Z),
    2 < seq ->
    eventMetric F raw seq = F raw
    /\ (forall metric : Z, kickStartMetric metric seq = metric).
Proof.
  intros F raw seq Hseq. split.
  - unfold eventMetric. apply kickStartMetric_late. exact Hseq.
  - intros metric. apply kickStartMetric_late. exact Hseq.
Qed.

Lemma tenths_values :
  tenths 1 = 100000 /\ tenths 2 = 200000 /\ tenths 7 = 700000
  /\ tenths 8 = 800000 /\ tenths 9 = 900000 /\ hundredths 35 = 350000.
Proof. vm_compute. repeat split; reflexivity. Qed.

(** C10: on a metric between 0 and [DecimalUnit], [kickStartMetric]
    never lowers the metric and never raises it above [DecimalUnit],
    for every sequence number. *)
Theorem kickStartMetric_bounds :
  forall (metric seq : Z),
    0 <= metric <= piecefunc.DecimalUnit ->
    metric <= kickStartMetric metric seq <= piecefunc.DecimalUnit.
Proof.
  intros metric seq Hm.
  destruct tenths_values as (T1 & T2 & _ & T8 & T9 & _).
  unfold kickStartMetric, Go.add_u64. rewrite T1, T2, T8, T9.
  unfold piecefunc.DecimalUnit in *.
  destruct ((seq <=? 2) && (metric <? 900000)) eqn:E1.
  - apply andb_true_iff in E1 as [_ Hlt]. apply Z.ltb_lt in Hlt.
    rewrite (uint64_small (metric + 100000)) by lia.
    destruct ((seq <=? 1) && (metric + 100000 <=? 800000)) eqn:E2.
    + apply andb_true_iff in E2 as [_ Hle]. apply Z.leb_le in Hle.
      rewrite uint64_small by lia. lia.
    + lia.
  - destruct ((seq <=? 1) && (metric <=? 800000)) eqn:E2.
    + apply andb_true_iff in E2 as [_ Hle]. apply Z.leb_le in Hle.
      rewrite uint64_small by lia. lia.
    + lia.
Qed.

(** ** Elapsed times *)

Lemma locals_passedTime_range (em : Emitter) (e : inter.Event) (metric : Z) :
  0 <= passedTime (locals em e metric) <= Go.MaxInt64.
Proof. unfold locals. cbn [passedTime]. apply floor0_range, Sub_range. Qed.

Lemma locals_passedTimeIdle_range (em : Emitter) (e : inter.Event) (metric : Z) :
  0 <= passedTimeIdle (locals em e metric) <= Go.MaxInt64.
Proof. unfold locals. cbn [passedTimeIdle]. apply floor0_range, Sub_range. Qed.

Lemma adjust_wrapped (d metric : Z) :
  0 <= d <= Go.MaxInt64 ->
  adjust d metric = Go.int64 (Go.uint64 (d / piecefunc.DecimalUnit * metric)).
Proof.
  unfold Go.MaxInt64. intros Hd.
  unfold adjust, Go.mul_u64, Go.quo_i64, piecefunc.DecimalUnit.
  rewrite Z.quot_div_nonneg by lia.
  assert (Hq : 0 <= d / 1000000 <= d).
  { split; [apply Z.div_pos; lia |].
    apply Z.div_le_upper_bound; lia. }
  rewrite (int64_small (d / 1000000)) by lia.
  rewrite (uint64_small (d / 1000000)) by lia.
  reflexivity.
Qed.

Lemma adjust_exact (d metric : Z) :
  0 <= d <= Go.MaxInt64 -> 0 <= metric ->
  d / piecefunc.DecimalUnit * metric <= Go.MaxInt64 ->
  adjust d metric = d / piecefunc.DecimalUnit * metric.
Proof.
  intros Hd Hm Hfit. rewrite adjust_wrapped by exact Hd.
  unfold Go.MaxInt64, piecefunc.DecimalUnit in *.
  assert (Hq : 0 <= d / 1000000) by (apply Z.div_pos; lia).
  assert (Hp : 0 <= d / 1000000 * metric) by (apply Z.mul_nonneg_nonneg; lia).
  rewrite uint64_small by lia.
  apply int64_small. lia.
Qed.

Lemma scaled_exact (d metric : Z) :
  d mod piecefunc.DecimalUnit = 0 ->
  d / piecefunc.DecimalUnit * metric = d * metric / piecefunc.DecimalUnit.
Proof.
  unfold piecefunc.DecimalUnit. intros Hmod.
  apply Z.div_exact in Hmod; [| lia].
  set (q := d / 1000000) in *.
  rewrite Hmod.
  replace (1000000 * q * metric) with (q * metric * 1000000) by ring.
  rewrite Z.div_mul by lia. reflexivity.
Qed.

(** C6 (amended): the adjusted elapsed times divide before they
    multiply. [adjustedPassedTime] is [passedTime / DecimalUnit] (the
    integer quotient) times [metric], the product taken in [uint64] and
    read back as an [int64]; [adjustedPassedIdleTime] is the same with
    [passedTimeIdle] as it stands on line 582. When the product fits an
    [int64] it is exact, and it equals [passedTime * metric / DecimalUnit]
    when [passedTime] is a multiple of [DecimalUnit]. *)
Theorem adjusted_times_divide_first :
  forall (em : Emitter) (e : inter.Event) (metric : Z),
    adjustedPassedTime (locals em e metric)
    = Go.int64 (Go.uint64 (passedTime (locals em e metric)
                           / piecefunc.DecimalUnit * metric))
    /\ adjustedPassedIdleTime (locals em e metric)
       = Go.int64 (Go.uint64 (passedTimeIdle (locals em e metric)
                              / piecefunc.DecimalUnit * metric))
    /\ (0 <= metric ->
        passedTime (locals em e metric) / piecefunc.DecimalUnit * metric
        <= Go.MaxInt64 ->
        adjustedPassedTime (locals em e metric)
        = passedTime (locals em e metric) / piecefunc.DecimalUnit * metric)
    /\ (0 <= metric ->
        passedTimeIdle (locals em e metric) / piecefunc.DecimalUnit * metric
        <= Go.MaxInt64 ->
        adjustedPassedIdleTime (locals em e metric)
        = passedTimeIdle (locals em e metric) / piecefunc.DecimalUnit * metric)
    /\ (passedTime (locals em e metric) mod piecefunc.DecimalUnit = 0 ->
        passedTime (locals em e metric) / piecefunc.DecimalUnit * metric
        = passedTime (locals em e metric) * metric / piecefunc.DecimalUnit)
    /\ (passedTimeIdle (locals em e metric) mod piecefunc.DecimalUnit = 0 ->
        passedTimeIdle (locals em e metric) / piecefunc.DecimalUnit * metric
        = passedTimeIdle (locals em e metric) * metric / piecefunc.DecimalUnit).
Proof.
  intros em e metric.
  pose proof (locals_passedTime_range em e metric) as Hp.
  pose proof (locals_passedTimeIdle_range em e metric) as Hi.
  assert (Ha : adjustedPassedTime (locals em e metric)
               = adjust (passedTime (locals em e metric)) metric) by reflexivity.
  assert (Hb : adjustedPassedIdleTime (locals em e metric)
               = adjust (passedTimeIdle (locals em e metric)) metric) by reflexivity.
  rewrite Ha, Hb.
  split; [apply adjust_wrapped; exact Hp |].
  split; [apply adjust_wrapped; exact Hi |].
  split; [intros; apply adjust_exact; assumption |].
  split; [intros; apply adjust_exact; assumption |].
  split; intros; apply scaled_exact; assumption.
Qed.



Lemma blendIdle_frame (em : Emitter) (e : inter.Event) (l : Locals) :
  passedTime (blendIdle em e l) = passedTime l
  /\ adjustedPassedTime (blendIdle em e l) = adjustedPassedTime l
  /\ adjustedPassedIdleTime (blendIdle em e l) = adjustedPassedIdleTime l
  /\ passedBlocks (blendIdle em e l) = passedBlocks l.
Proof. unfold blendIdle. cbn. tauto. Qed.

Section StakeRatio.

Variable r : gmap Z Z.
Variable em : Emitter.

Lemma locals_withStakeRatio (e : inter.Event) (metric : Z) :
  locals (withStakeRatio r em) e metric = locals em e metric.
Proof. reflexivity. Qed.

Lemma notEnoughPower_withStakeRatio (e : inter.Event) (sp : option inter.Event) :
  notEnoughPower (withStakeRatio r em) e sp = notEnoughPower em e sp.
Proof. reflexivity. Qed.

Lemma maxBlocks_withStakeRatio : maxBlocks (withStakeRatio r em) = maxBlocks em.
Proof. reflexivity. Qed.

Lemma lowPowerThreshold_withStakeRatio :
  lowPowerThreshold (withStakeRatio r em) = lowPowerThreshold em.
Proof. reflexivity. Qed.

Lemma adjustedEmitInterval_withStakeRatio (u : spec_float -> Z) (e : inter.Event) :
  adjustedEmitInterval u (withStakeRatio r em) e = adjustedEmitInterval u em e.
Proof. reflexivity. Qed.

Lemma intervals_withStakeRatio : intervals (withStakeRatio r em) = intervals em.
Proof. reflexivity. Qed.

Lemma idle_withStakeRatio : idle (withStakeRatio r em) = idle em.
Proof. reflexivity. Qed.

(** The statement reached does not depend on the stake ratios: the
    tests after line 604 read [passedTime], the two adjusted times of
    lines 581-582 and [passedBlocks], none of which [blendIdle] changes. *)
Lemma isAllowedToEmit_site_withStakeRatio (u : spec_float -> Z)
      (e : inter.Event) (eTxs : bool) (metric : Z)
      (selfParent : option inter.Event) :
  isAllowedToEmit_site u (withStakeRatio r em) e eTxs metric selfParent
  = isAllowedToEmit_site u em e eTxs metric selfParent.
Proof.
  unfold isAllowedToEmit_site, enforced.
  rewrite locals_withStakeRatio.
  set (l := locals em e metric).
  destruct (blendIdle_frame (withStakeRatio r em) e l) as (P1 & A1 & I1 & B1).
  destruct (blendIdle_frame em e l) as (P0 & A0 & I0 & B0).
  rewrite P1, A1, I1, B1, P0, A0, I0, B0.
  rewrite notEnoughPower_withStakeRatio, maxBlocks_withStakeRatio,
    lowPowerThreshold_withStakeRatio, adjustedEmitInterval_withStakeRatio,
    intervals_withStakeRatio, idle_withStakeRatio.
  reflexivity.
Qed.

End StakeRatio.

(** ** Idle tracking *)

Lemma recheckIdleTime_free (now : Z) (em : Emitter) :
  locked (world em) = false ->
  recheckIdleTime now em
  = Some (if idle em then withPrevIdleTime now em else em).
Proof.
  intros Hfree. unfold recheckIdleTime, Lock. rewrite Hfree. cbn.
  destruct em as [c w v r i pe pi pb np].
  destruct w as [b s k]. cbn in Hfree. subst k.
  unfold idle, withWorld, withPrevIdleTime. cbn.
  destruct np; reflexivity.
Qed.

(** C9: [recheckIdleTime], entered with the world mutex free, returns
    with [prevIdleTime] set to the current time when the emitter is idle
    and unchanged when it is not; [prevEmittedAtTime],
    [prevEmittedAtBlock] and [stakeRatio] are unchanged in both cases,
    as is every other field. *)
Theorem recheckIdleTime_touches_only_prevIdleTime :
  forall (now : Z) (em : Emitter),
    locked (world em) = false ->
    exists em' : Emitter,
      recheckIdleTime now em = Some em'
      /\ (idle em = true -> prevIdleTime em' = now)
      /\ (idle em = false -> prevIdleTime em' = prevIdleTime em)
      /\ prevEmittedAtTime em' = prevEmittedAtTime em
      /\ prevEmittedAtBlock em' = prevEmittedAtBlock em
      /\ stakeRatio em' = stakeRatio em
      /\ config em' = config em
      /\ world em' = world em
      /\ validators em' = validators em
      /\ intervals em' = intervals em
      /\ noPendingWork em' = noPendingWork em.
Proof.
  intros now em Hfree.
  exists (if idle em then withPrevIdleTime now em else em).
  split; [apply recheckIdleTime_free; exact Hfree |].
  destruct (idle em); cbn; intuition congruence.
Qed.

(** A held mutex: the call does not return. *)
Lemma recheckIdleTime_held (now : Z) (em : Emitter) :
  locked (world em) = true -> recheckIdleTime now em = None.
Proof.
  intros Hheld. unfold recheckIdleTime, Lock. rewrite Hheld. reflexivity.
Qed.

(** * Concrete runs *)

(** The top-50 test does tell validator sets apart: id 51 is in the
    sample set's ids only past position 50. *)
Example isInTop50_manyIDs :
  isInTop50 50 manyIDs = true /\ isInTop50 51 manyIDs = false
  /\ isInTop50 2 (pos.SortedIDs sampleValidators) = true.
Proof. vm_compute. tauto. Qed.

(** The return statements reached by the sample emitter. *)
Example sample_sites :
  isAllowedToEmit_site amd64 sampleEmitter
    (sampleEvent (10 * time.Second) 500) false 10000 (Some (sampleEvent 0 600))
  = NotEnoughPower
  /\ isAllowedToEmit_site amd64 sampleEmitter
       (sampleEvent (50 * time.Millisecond) 2000) true 0 None
     = LowPower
  /\ isAllowedToEmit_site amd64 sampleIdleEmitter
       (sampleEvent (10 * time.Second) 1000000000) false 10000 None
     = NoTxs
  /\ isAllowedToEmit_site amd64 sampleEmitter
       (sampleEvent (10 * time.Second) 1000000000) false 10000 None
     = AdjustedBelowMin
  /\ isAllowedToEmit_site amd64 sampleEmitter
       (sampleEvent (10 * time.Second) 1000000000) false 1000000 None
     = EndOfChecks.
Proof. vm_compute. tauto. Qed.

(** The low-power interval for 2000 gas left against a threshold of
    3000, between 110 ms and 600 s. *)
Example sample_adjustedEmitInterval :
  adjustedEmitInterval amd64 sampleEmitter (sampleEvent 0 2000) = 200073333333.
Proof. vm_compute. reflexivity. Qed.

(** The two boundary stake ratios: 0.35 averages, 0.7 leaves as is. *)
Example blendIdle_boundaries :
  let l := {| passedTime := 900; passedTimeIdle := 100;
              adjustedPassedTime := 0; adjustedPassedIdleTime := 0;
              passedBlocks := 0; supermajority := true |} in
  let em r := {| config := config sampleEmitter; world := world sampleEmitter;
                 validators := validators sampleEmitter;
                 stakeRatio := {[ 2 := r ]};
                 intervals := intervals sampleEmitter;
                 prevEmittedAtTime := sampleStart; prevIdleTime := sampleStart;
                 prevEmittedAtBlock := 100; noPendingWork := false |} in
  passedTimeIdle (blendIdle (em 349999) (sampleEvent 0 7) l) = 900
  /\ passedTimeIdle (blendIdle (em 350000) (sampleEvent 0 7) l) = 500
  /\ passedTimeIdle (blendIdle (em 699999) (sampleEvent 0 7) l) = 500
  /\ passedTimeIdle (blendIdle (em 700000) (sampleEvent 0 7) l) = 100.
Proof. vm_compute. tauto. Qed.

(** The sample emitter 600 s after its last emission, low on power
    and below its self-parent. *)
Lemma isAllowedToEmit_after_Max_witness :
  Max (intervals sampleEmitter)
  <= passedTime (locals sampleEmitter (sampleEvent (600 * time.Second) 500) 0)
  /\ ((powerEmergency sampleEmitter (sampleEvent (600 * time.Second) 500)
                      (Some (sampleEvent 0 600)) ->
       isAllowedToEmit amd64 sampleEmitter (sampleEvent (600 * time.Second) 500)
                       false 0 (Some (sampleEvent 0 600)) = false)
      /\ (~ powerEmergency sampleEmitter (sampleEvent (600 * time.Second) 500)
                           (Some (sampleEvent 0 600)) ->
          isAllowedToEmit_site amd64 sampleEmitter
            (sampleEvent (600 * time.Second) 500) false 0 (Some (sampleEvent 0 600))
          = EnforcedEmit
          /\ isAllowedToEmit amd64 sampleEmitter
               (sampleEvent (600 * time.Second) 500) false 0
               (Some (sampleEvent 0 600)) = true)).
Proof.
  split.
  - vm_compute. discriminate.
  - apply (isAllowedToEmit_after_Max amd64 sampleEmitter
             (sampleEvent (600 * time.Second) 500) false 0
             (Some (sampleEvent 0 600))).
    vm_compute. discriminate.
Defined.



(** C6, as stated, fails: 1 500 000 ns after the last emission and with
    metric 500000 (one half), [adjustedPassedTime] is
    [(1500000 / 1000000) * 500000 = 500000], whereas
    [1500000 * 500000 / 1000000 = 750000]; likewise for the idle time. *)
Lemma adjusted_times_counterexample :
  passedTime (locals sampleEmitter (sampleEvent 1500000 7) 500000) = 1500000
  /\ passedTimeIdle (locals sampleEmitter (sampleEvent 1500000 7) 500000)
     = 1500000
  /\ adjustedPassedTime (locals sampleEmitter (sampleEvent 1500000 7) 500000)
     = 500000
  /\ adjustedPassedIdleTime (locals sampleEmitter (sampleEvent 1500000 7) 500000)
     = 500000
  /\ 1500000 * 500000 / piecefunc.DecimalUnit = 750000
  /\ adjustedPassedTime (locals sampleEmitter (sampleEvent 1500000 7) 500000)
     <> passedTime (locals sampleEmitter (sampleEvent 1500000 7) 500000)
        * 500000 / piecefunc.DecimalUnit
  /\ adjustedPassedIdleTime (locals sampleEmitter (sampleEvent 1500000 7) 500000)
     <> passedTimeIdle (locals sampleEmitter (sampleEvent 1500000 7) 500000)
        * 500000 / piecefunc.DecimalUnit.
Proof. vm_compute. repeat split; discriminate. Qed.

(** A candidate at sequence number 4 against a median of 5. *)
Lemma updMetric_no_progress_witness :
  updMetric capped 5 3 4 0 sampleValidators = Some 0.
Proof.
  apply (updMetric_no_progress capped 5 3 4 0 sampleValidators).
  left. lia.
Defined.

(** The third event of an epoch. *)
Lemma eventMetric_without_kickstart_witness :
  eventMetric capped 123 3 = capped 123
  /\ (forall metric : Z, kickStartMetric metric 3 = metric).
Proof.
  apply (eventMetric_without_kickstart capped 123 3). lia.
Defined.

(** A zero metric at the first event of an epoch. *)
Lemma kickStartMetric_bounds_witness :
  0 <= kickStartMetric 0 1 <= piecefunc.DecimalUnit.
Proof.
  apply (kickStartMetric_bounds 0 1). vm_compute. split; discriminate.
Defined.

(** The idle sample emitter, five nanoseconds on. *)
Lemma recheckIdleTime_witness :
  exists em' : Emitter,
    recheckIdleTime (sampleStart + 5) sampleIdleEmitter = Some em'
    /\ (idle sampleIdleEmitter = true -> prevIdleTime em' = sampleStart + 5)
    /\ (idle sampleIdleEmitter = false ->
        prevIdleTime em' = prevIdleTime sampleIdleEmitter)
    /\ prevEmittedAtTime em' = prevEmittedAtTime sampleIdleEmitter
    /\ prevEmittedAtBlock em' = prevEmittedAtBlock sampleIdleEmitter
    /\ stakeRatio em' = stakeRatio sampleIdleEmitter
    /\ config em' = config sampleIdleEmitter
    /\ world em' = world sampleIdleEmitter
    /\ validators em' = validators sampleIdleEmitter
    /\ intervals em' = intervals sampleIdleEmitter
    /\ noPendingWork em' = noPendingWork sampleIdleEmitter.
Proof.
  apply (recheckIdleTime_touches_only_prevIdleTime (sampleStart + 5) sampleIdleEmitter).
  reflexivity.
Defined.

(** The kickstart at the very first event of an epoch: both boosts. *)
Example kickStartMetric_first : kickStartMetric 0 1 = 300000.
Proof. reflexivity. Qed.

(** * Further properties of [emitter/control.go] *)

(** ** The top-50 test *)

Lemma range_has_elem_of (number : Z) (s : list Z) :
  range_has number s = true <-> number ∈ s.
Proof.
  induction s as [| v rest IH]; cbn [range_has].
  - rewrite elem_of_nil. split; [discriminate | tauto].
  - rewrite elem_of_cons.
    destruct (Z.eqb_spec v number) as [-> | Hne].
    + split; [left; reflexivity | reflexivity].
    + rewrite IH. split; [tauto |].
      intros [Heq | Hin]; [congruence | exact Hin].
Qed.

Lemma top50_take (slice : list Z) : top50 slice = take 50 slice.
Proof.
  unfold top50.
  destruct (Nat.ltb_spec 50 (length slice)) as [Hlt | Hge]; [reflexivity |].
  symmetry. apply take_ge. exact Hge.
Qed.

(** [top50] is the prefix of the slice of length [min 50 (len slice)]:
    a slice of at most 50 ids is returned whole, a longer one is cut
    after its 50th element. *)
Lemma top50_prefix :
  forall slice : list Z,
    top50 slice = take 50 slice
    /\ length (top50 slice) = Nat.min 50 (length slice)
    /\ (forall i : nat, (i < 50)%nat -> top50 slice !! i = slice !! i)
    /\ (forall i : nat, (50 <= i)%nat -> top50 slice !! i = None).
Proof.
  intros slice. rewrite top50_take.
  split; [reflexivity |].
  split; [apply length_take |].
  split.
  - intros i Hi. apply lookup_take_lt. exact Hi.
  - intros i Hi. apply lookup_take_ge. exact Hi.
Qed.

(** X1: [isInTop50 number slice] holds exactly when [number] stands at
    one of the first 50 positions of [slice]. *)
Theorem isInTop50_iff_position :
  forall (number : Z) (slice : list Z),
    isInTop50 number slice = true
    <-> exists i : nat, (i < 50)%nat /\ slice !! i = Some number.
Proof.
  intros number slice. unfold isInTop50.
  rewrite range_has_elem_of, top50_take, elem_of_take.
  split; intros [i Hi]; exists i; tauto.
Qed.

(** ** Elapsed times *)

Lemma floor0_Sub (t u : Z) :
  (t <= u -> floor0 (time.Sub t u) = 0)
  /\ (u <= t -> floor0 (time.Sub t u) = Z.min (t - u) Go.MaxInt64).
Proof.
  unfold floor0, time.Sub, Go.MinInt64, Go.MaxInt64.
  split; intros H; repeat case_match; lia.
Qed.

(** X2: the elapsed times never go negative and never overflow. An event
    created at or before the previous emission (clock skew) has
    [passedTime = 0]; otherwise [passedTime] is the exact difference,
    capped at the largest [Duration]. The same holds of [passedTimeIdle]
    against [prevIdleTime]. *)
Theorem elapsed_times_clamped :
  forall (em : Emitter) (e : inter.Event) (metric : Z),
    (inter.Time (inter.CreationTime e) <= prevEmittedAtTime em ->
     passedTime (locals em e metric) = 0)
    /\ (prevEmittedAtTime em <= inter.Time (inter.CreationTime e) ->
        passedTime (locals em e metric)
        = Z.min (inter.Time (inter.CreationTime e) - prevEmittedAtTime em)
                Go.MaxInt64)
    /\ (inter.Time (inter.CreationTime e) <= prevIdleTime em ->
        passedTimeIdle (locals em e metric) = 0)
    /\ (prevIdleTime em <= inter.Time (inter.CreationTime e) ->
        passedTimeIdle (locals em e metric)
        = Z.min (inter.Time (inter.CreationTime e) - prevIdleTime em)
                Go.MaxInt64)
    /\ 0 <= passedTime (locals em e metric) <= Go.MaxInt64
    /\ 0 <= passedTimeIdle (locals em e metric) <= Go.MaxInt64.
Proof.
  intros em e metric.
  unfold locals. cbn [passedTime passedTimeIdle].
  pose proof (floor0_Sub (inter.Time (inter.CreationTime e)) (prevEmittedAtTime em))
    as [Ha Hb].
  pose proof (floor0_Sub (inter.Time (inter.CreationTime e)) (prevIdleTime em))
    as [Hc Hd].
  split; [exact Ha |]. split; [exact Hb |].
  split; [exact Hc |]. split; [exact Hd |].
  split; apply floor0_range, Sub_range.
Qed.

(** ** The enforcing check *)

Lemma maxBlocks_unfold (em : Emitter) (slack : Z) :
  BlockMissedSlack (world em) = slack ->
  maxBlocks em
  = if (Go.add_u64 (slack / 2) 1 <? slack)
       && (Go.add_u64 (slack / 2) 1 <? Go.sub_u64 slack 5)
    then Go.sub_u64 slack 5 else Go.add_u64 (slack / 2) 1.
Proof. intros <-. reflexivity. Qed.

(** X3: [maxBlocks] as a function of [BlockMissedSlack] (a [uint64]). It
    is [slack - 5] from 12 on and [slack/2 + 1] for a slack of at most 2
    or between 5 and 11. For a slack of 3 or 4 the subtraction
    [slack - 5] wraps around, the guard [maxBlocks < slack - 5] passes,
    and [maxBlocks] becomes [2^64 - 2], respectively [2^64 - 1]. *)
Theorem maxBlocks_by_slack :
  forall em : Emitter,
    0 <= BlockMissedSlack (world em) < 2 ^ 64 ->
    (12 <= BlockMissedSlack (world em) ->
     maxBlocks em = BlockMissedSlack (world em) - 5)
    /\ (BlockMissedSlack (world em) <= 2
        \/ 5 <= BlockMissedSlack (world em) <= 11 ->
        maxBlocks em = BlockMissedSlack (world em) / 2 + 1)
    /\ (BlockMissedSlack (world em) = 3 -> maxBlocks em = 2 ^ 64 - 2)
    /\ (BlockMissedSlack (world em) = 4 -> maxBlocks em = 2 ^ 64 - 1).
Proof.
  intros em Hrange.
  rewrite (maxBlocks_unfold em _ eq_refl).
  set (slack := BlockMissedSlack (world em)) in *.
  assert (Hhalf : 0 <= slack / 2 /\ 2 * (slack / 2) <= slack < 2 * (slack / 2) + 2).
  { pose proof (Z.div_mod slack 2 ltac:(lia)) as Hdm.
    pose proof (Z.mod_pos_bound slack 2 ltac:(lia)). lia. }
  unfold Go.add_u64, Go.sub_u64.
  rewrite (uint64_small (slack / 2 + 1)) by lia.
  split; [| split; [| split]].
  - intros H12. rewrite (uint64_small (slack - 5)) by lia.
    destruct (Z.ltb_spec (slack / 2 + 1) slack);
      destruct (Z.ltb_spec (slack / 2 + 1) (slack - 5)); cbn [andb]; lia.
  - intros [Hle | Hmid].
    + destruct (Z.ltb_spec (slack / 2 + 1) slack); cbn [andb]; [lia | reflexivity].
    + rewrite (uint64_small (slack - 5)) by lia.
      destruct (Z.ltb_spec (slack / 2 + 1) slack);
        destruct (Z.ltb_spec (slack / 2 + 1) (slack - 5)); cbn [andb]; lia.
  - intros ->. reflexivity.
  - intros ->. reflexivity.
Qed.

Lemma notEnoughPower_false (em : Emitter) (e : inter.Event)
      (selfParent : option inter.Event) :
  notEnoughPower em e selfParent = false <-> ~ powerEmergency em e selfParent.
Proof.
  rewrite <- notEnoughPower_spec.
  destruct (notEnoughPower em e selfParent); split; congruence.
Qed.

(** X4: the enforcing [return] of line 628 is reached exactly when there
    is no gas-power emergency and [passedTime >= intervals.Max], or
    [passedBlocks >= maxBlocks*4/5] with [metric >= DecimalUnit/2], or
    [passedBlocks >= maxBlocks] (the product [maxBlocks*4] in [uint64]). *)
Theorem EnforcedEmit_iff :
  forall (u : spec_float -> Z) (em : Emitter) (e : inter.Event) (eTxs : bool)
         (metric : Z) (selfParent : option inter.Event),
    isAllowedToEmit_site u em e eTxs metric selfParent = EnforcedEmit
    <-> ~ powerEmergency em e selfParent
        /\ (Max (intervals em) <= passedTime (locals em e metric)
            \/ (Go.mul_u64 (maxBlocks em) 4 / 5 <= passedBlocks (locals em e metric)
                /\ piecefunc.DecimalUnit / 2 <= metric)
            \/ maxBlocks em <= passedBlocks (locals em e metric)).
Proof.
  intros u em e eTxs metric selfParent.
  rewrite <- notEnoughPower_false.
  unfold isAllowedToEmit_site. rewrite supermajority_locals.
  destruct (blendIdle_frame em e (locals em e metric)) as (P & _ & _ & B).
  assert (Henf : enforced em metric (blendIdle em e (locals em e metric)) = true
                 <-> (Max (intervals em) <= passedTime (locals em e metric)
                      \/ (Go.mul_u64 (maxBlocks em) 4 / 5
                          <= passedBlocks (locals em e metric)
                          /\ piecefunc.DecimalUnit / 2 <= metric)
                      \/ maxBlocks em <= passedBlocks (locals em e metric))).
  { unfold enforced. rewrite P, B.
    rewrite !orb_true_iff, andb_true_iff, !Z.leb_le. tauto. }
  rewrite <- Henf.
  destruct (notEnoughPower em e selfParent).
  - split; [discriminate | intros [H _]; discriminate H].
  - destruct (enforced em metric (blendIdle em e (locals em e metric))).
    + tauto.
    + split; [split_ifs; discriminate | intros [_ H]; discriminate H].
Qed.

(** ** The kickstart *)

Lemma kickStartMetric_cases (metric seq : Z) :
  0 <= metric ->
  (seq <= 1 /\ metric <= tenths 7 ->
   kickStartMetric metric seq = metric + tenths 3)
  /\ (seq <= 1 /\ tenths 7 < metric < tenths 9 ->
      kickStartMetric metric seq = metric + tenths 1)
  /\ (seq = 2 /\ metric < tenths 9 ->
      kickStartMetric metric seq = metric + tenths 1)
  /\ (2 < seq \/ tenths 9 <= metric -> kickStartMetric metric seq = metric).
Proof.
  intros Hm.
  destruct tenths_values as (T1 & T2 & T7 & T8 & T9 & _).
  assert (T3 : tenths 3 = 300000) by reflexivity.
  unfold kickStartMetric, Go.add_u64. rewrite T1, T2, T3, T7, T8, T9.
  destruct (Z.leb_spec seq 2) as [H2 | H2];
    destruct (Z.leb_spec seq 1) as [H1 | H1];
    destruct (Z.ltb_spec metric 900000) as [H9 | H9]; cbn [andb];
    try rewrite (uint64_small (metric + 100000)) by lia;
    try (destruct (Z.leb_spec (metric + 100000) 800000) as [H8 | H8]);
    try (destruct (Z.leb_spec metric 800000) as [H8' | H8']);
    try rewrite (uint64_small (metric + 100000 + 200000)) by lia;
    try rewrite (uint64_small (metric + 200000)) by lia;
    repeat split; intros; lia.
Qed.

(** X5: the boost of [kickStartMetric], case by case, for a metric that
    is a [uint64]. At [seq <= 1] a metric of at most [0.7*DecimalUnit]
    gains [0.3*DecimalUnit] and one strictly between [0.7] and
    [0.9*DecimalUnit] gains [0.1*DecimalUnit]; at [seq = 2] a metric
    below [0.9*DecimalUnit] gains [0.1*DecimalUnit]; from
    [0.9*DecimalUnit] on, or for [seq > 2], the metric is unchanged. The
    boost is never [0.2*DecimalUnit] alone. *)
Theorem kickStartMetric_boost :
  forall metric seq : Z,
    0 <= metric ->
    ((seq <= 1 /\ metric <= tenths 7 ->
      kickStartMetric metric seq = metric + tenths 3)
     /\ (seq <= 1 /\ tenths 7 < metric < tenths 9 ->
         kickStartMetric metric seq = metric + tenths 1)
     /\ (seq = 2 /\ metric < tenths 9 ->
         kickStartMetric metric seq = metric + tenths 1)
     /\ (2 < seq \/ tenths 9 <= metric -> kickStartMetric metric seq = metric))
    /\ kickStartMetric metric seq <> metric + tenths 2.
Proof.
  intros metric seq Hm.
  pose proof (kickStartMetric_cases metric seq Hm) as (C3 & C1 & C2 & C0).
  split; [tauto |].
  destruct tenths_values as (T1 & T2 & T7 & T8 & T9 & _).
  assert (T3 : tenths 3 = 300000) by reflexivity.
  rewrite T1, T3, T7, T9 in *. rewrite T2.
  destruct (Z.le_gt_cases seq 1) as [H1 | H1].
  - destruct (Z.le_gt_cases metric 700000) as [H7 | H7].
    + rewrite C3 by lia. lia.
    + destruct (Z.lt_ge_cases metric 900000) as [H9 | H9].
      * rewrite C1 by lia. lia.
      * rewrite C0 by lia. lia.
  - destruct (Z.eq_dec seq 2) as [-> | Hne].
    + destruct (Z.lt_ge_cases metric 900000) as [H9 | H9].
      * rewrite C2 by lia. lia.
      * rewrite C0 by lia. lia.
    + rewrite C0 by lia. lia.
Qed.

(** X6: at the first event of an epoch the kickstart can invert the
    order of two metrics: a metric of at most [0.7*DecimalUnit] ends
    above any metric between [0.7] and [0.9*DecimalUnit] that exceeds it
    by less than [0.2*DecimalUnit]. *)
Theorem kickStartMetric_inverts_order :
  forall seq m1 m2 : Z,
    seq <= 1 ->
    0 <= m1 <= tenths 7 ->
    tenths 7 < m2 < tenths 9 ->
    m2 - m1 < tenths 2 ->
    m1 < m2 /\ kickStartMetric m2 seq < kickStartMetric m1 seq.
Proof.
  intros seq m1 m2 Hseq H1 H2 Hd.
  pose proof (kickStartMetric_cases m1 seq ltac:(lia)) as (C3 & _).
  destruct tenths_values as (T1 & T2 & T7 & T8 & T9 & _).
  assert (T3 : tenths 3 = 300000) by reflexivity.
  rewrite T7 in H1. rewrite T7, T9 in H2. rewrite T2 in Hd.
  pose proof (kickStartMetric_cases m2 seq ltac:(lia)) as (_ & C1 & _).
  rewrite T1, T3, T7, T9 in *.
  rewrite C3 by lia. rewrite C1 by lia. lia.
Qed.

(** X7: [eventMetric] keeps a table value within [0, DecimalUnit]
    inside that range and never below the table value, for every
    sequence number. *)
Theorem eventMetric_bounds :
  forall (F : Z -> Z) (raw seq : Z),
    0 <= F raw <= piecefunc.DecimalUnit ->
    F raw <= eventMetric F raw seq <= piecefunc.DecimalUnit.
Proof.
  intros F raw seq HF. unfold eventMetric.
  pose proof (kickStartMetric_cases (F raw) seq ltac:(lia)) as (C3 & C1 & C2 & C0).
  destruct tenths_values as (T1 & T2 & T7 & T8 & T9 & _).
  assert (T3 : tenths 3 = 300000) by reflexivity.
  rewrite T1, T3, T7, T9 in *.
  unfold piecefunc.DecimalUnit in *.
  destruct (Z.le_gt_cases seq 1) as [H1 | H1].
  - destruct (Z.le_gt_cases (F raw) 700000) as [H7 | H7].
    + rewrite C3 by lia. lia.
    + destruct (Z.lt_ge_cases (F raw) 900000) as [H9 | H9].
      * rewrite C1 by lia. lia.
      * rewrite C0 by lia. lia.
  - destruct (Z.eq_dec seq 2) as [-> | Hne].
    + destruct (Z.lt_ge_cases (F raw) 900000) as [H9 | H9].
      * rewrite C2 by lia. lia.
      * rewrite C0 by lia. lia.
    + rewrite C0 by lia. lia.
Qed.

(** ** The update metric *)

Lemma scalarUpdMetric_exact (F : Z -> Z) (diff w W : Z) :
  0 <= diff < 2 ^ 32 -> 0 <= w < 2 ^ 32 -> 0 < W ->
  0 <= F (diff * piecefunc.DecimalUnit) <= piecefunc.DecimalUnit ->
  scalarUpdMetric F diff w W
  = Some (F (diff * piecefunc.DecimalUnit) * w / W).
Proof.
  unfold piecefunc.DecimalUnit. intros Hd Hw HW HF.
  unfold scalarUpdMetric, Go.mul_u64, piecefunc.DecimalUnit.
  assert (HW0 : (W =? 0) = false) by (apply Z.eqb_neq; lia).
  rewrite HW0.
  rewrite (uint64_small (diff * 1000000)) by lia.
  set (f := F (diff * 1000000)) in *.
  assert (Hp : 0 <= f * w <= 1000000 * 2 ^ 32).
  { split; [apply Z.mul_nonneg_nonneg; lia |].
    apply Z.mul_le_mono_nonneg; lia. }
  rewrite (uint64_small (f * w)) by lia.
  reflexivity.
Qed.

(** X8: the weighted metric of [scalarUpdMetric] (sequence distance and
    weights within [uint32], a positive total weight, table value within
    [0, DecimalUnit]) is the table value scaled by [weight/totalWeight],
    rounded down: it never exceeds the table value when the weight is at
    most the total, equals it at full weight, and is zero at weight
    zero. *)
Theorem scalarUpdMetric_weighted :
  forall (F : Z -> Z) (diff w W : Z),
    0 <= diff < 2 ^ 32 -> 0 <= w < 2 ^ 32 -> 0 < W -> w <= W ->
    0 <= F (diff * piecefunc.DecimalUnit) <= piecefunc.DecimalUnit ->
    exists m : Z,
      scalarUpdMetric F diff w W = Some m
      /\ m = F (diff * piecefunc.DecimalUnit) * w / W
      /\ 0 <= m <= F (diff * piecefunc.DecimalUnit)
      /\ (w = W -> m = F (diff * piecefunc.DecimalUnit))
      /\ (w = 0 -> m = 0).
Proof.
  intros F diff w W Hd Hw HW Hle HF.
  exists (F (diff * piecefunc.DecimalUnit) * w / W).
  split; [apply scalarUpdMetric_exact; assumption |].
  split; [reflexivity |].
  set (f := F (diff * piecefunc.DecimalUnit)) in *.
  split; [| split].
  - split.
    + apply Z.div_pos; [apply Z.mul_nonneg_nonneg; lia | lia].
    + apply Z.div_le_upper_bound; [lia |].
      rewrite (Z.mul_comm W f). apply Z.mul_le_mono_nonneg_l; lia.
  - intros ->. apply Z.div_mul. lia.
  - intros ->. rewrite Z.mul_0_r. apply Z.div_0_l. lia.
Qed.

(** A division by a zero total weight panics, whatever the rest. *)
Lemma scalarUpdMetric_None (F : Z -> Z) (diff w W : Z) :
  scalarUpdMetric F diff w W = None <-> W = 0.
Proof.
  unfold scalarUpdMetric.
  destruct (Z.eqb_spec W 0) as [H0 | H0]; split; congruence.
Qed.

(** X9: [updMetric] panics exactly when the candidate makes progress
    ([upd > median] and [upd > cur]) and either the validator index is
    past the end of the validator set or the total weight is zero. *)
Theorem updMetric_panics_iff :
  forall (F : Z -> Z) (median cur upd validatorIdx : Z)
         (validators : pos.Validators),
    updMetric F median cur upd validatorIdx validators = None
    <-> (median < upd /\ cur < upd)
        /\ (pos.GetWeightByIdx validators validatorIdx = None
            \/ pos.TotalWeight validators = 0).
Proof.
  intros F median cur upd validatorIdx validators.
  unfold updMetric.
  destruct (Z.leb_spec upd median) as [Hm | Hm]; cbn [orb].
  { split; [discriminate | lia]. }
  destruct (Z.leb_spec upd cur) as [Hc | Hc].
  { split; [discriminate | lia]. }
  destruct (pos.GetWeightByIdx validators validatorIdx) as [w |]; cbn.
  - destruct (Z.eq_dec (pos.TotalWeight validators) 0) as [H0 | H0].
    + assert (Hn : forall d, scalarUpdMetric F d w (pos.TotalWeight validators) = None)
        by (intros d; apply scalarUpdMetric_None; exact H0).
      destruct (median <? cur); rewrite !Hn; cbn;
        (split; [intros _; split; [lia | right; exact H0] | reflexivity]).
    + assert (Hs : forall d, exists m,
                 scalarUpdMetric F d w (pos.TotalWeight validators) = Some m).
      { intros d.
        destruct (scalarUpdMetric F d w (pos.TotalWeight validators)) eqn:E;
          [eexists; reflexivity |].
        apply scalarUpdMetric_None in E. contradiction. }
      destruct (median <? cur).
      * destruct (Hs (Go.sub_u32 upd median)) as [a ->].
        destruct (Hs (Go.sub_u32 cur median)) as [b ->]. cbn.
        split; [discriminate |]. intros [_ [H | H]]; congruence.
      * destruct (Hs (Go.sub_u32 upd median)) as [a ->].
        split; [discriminate |]. intros [_ [H | H]]; congruence.
  - split; [intros _; split; [lia | left; reflexivity] | reflexivity].
Qed.

Lemma sub_u32_exact (a b : Z) : 0 <= b <= a -> a < 2 ^ 32 -> Go.sub_u32 a b = a - b.
Proof.
  intros H1 H2. unfold Go.sub_u32, Go.uint32. apply Z.mod_small. lia.
Qed.

Section UpdMetric.

Variable F : Z -> Z.
Hypothesis F_bounded : forall x : Z, 0 <= x -> 0 <= F x <= piecefunc.DecimalUnit.
Hypothesis F_monotone : forall x y : Z, 0 <= x <= y -> F x <= F y.

Variables (validators : pos.Validators) (validatorIdx w : Z).
Hypothesis weight_at : pos.GetWeightByIdx validators validatorIdx = Some w.
Hypothesis weight_u32 : 0 <= w < 2 ^ 32.
Hypothesis total_pos : 0 < pos.TotalWeight validators.

(** The share of the table value at sequence distance [d]. *)
Let share (d : Z) : Z :=
  F (d * piecefunc.DecimalUnit) * w / pos.TotalWeight validators.

Lemma share_nonneg (d : Z) : 0 <= d -> 0 <= share d <= 1000000 * 2 ^ 32.
Proof.
  intros Hd. unfold share.
  assert (Hx : 0 <= d * piecefunc.DecimalUnit)
    by (unfold piecefunc.DecimalUnit; lia).
  pose proof (F_bounded _ Hx) as HF.
  set (f := F (d * piecefunc.DecimalUnit)) in *.
  unfold piecefunc.DecimalUnit in HF.
  assert (Hp : 0 <= f * w <= 1000000 * 2 ^ 32).
  { split; [apply Z.mul_nonneg_nonneg; lia |].
    apply Z.mul_le_mono_nonneg; lia. }
  split.
  - apply Z.div_pos; lia.
  - apply Z.div_le_upper_bound; [lia |]. nia.
Qed.

Lemma share_monotone (d d' : Z) : 0 <= d <= d' -> share d <= share d'.
Proof.
  intros Hd. unfold share.
  apply Z.div_le_mono; [lia |].
  apply Z.mul_le_mono_nonneg_r; [lia |].
  apply F_monotone. unfold piecefunc.DecimalUnit. lia.
Qed.

Lemma updMetric_value (median cur upd : Z) :
  0 <= median < 2 ^ 32 -> 0 <= cur < 2 ^ 32 -> 0 <= upd < 2 ^ 32 ->
  updMetric F median cur upd validatorIdx validators
  = Some (if (upd <=? median) || (upd <=? cur) then 0
          else if median <? cur
               then share (upd - median) - share (cur - median)
               else share (upd - median)).
Proof.
  intros Hm Hc Hu. unfold updMetric. rewrite weight_at.
  destruct (Z.leb_spec upd median) as [H1 | H1]; cbn [orb]; [reflexivity |].
  destruct (Z.leb_spec upd cur) as [H2 | H2]; [reflexivity |].
  cbn.
  assert (Hx : forall d, 0 <= d ->
             0 <= F (d * piecefunc.DecimalUnit) <= piecefunc.DecimalUnit).
  { intros d Hd. apply F_bounded. unfold piecefunc.DecimalUnit. lia. }
  rewrite (sub_u32_exact upd median) by lia.
  rewrite (scalarUpdMetric_exact F (upd - median) w) by (try apply Hx; lia).
  destruct (Z.ltb_spec median cur) as [H3 | H3]; [| reflexivity].
  rewrite (sub_u32_exact cur median) by lia.
  rewrite (scalarUpdMetric_exact F (cur - median) w) by (try apply Hx; lia).
  cbn. f_equal. unfold Go.sub_u64.
  pose proof (share_monotone (cur - median) (upd - median) ltac:(lia)) as Hmono.
  pose proof (share_nonneg (upd - median) ltac:(lia)) as Ha.
  pose proof (share_nonneg (cur - median) ltac:(lia)) as Hb.
  fold (share (upd - median)). fold (share (cur - median)).
  apply uint64_small. lia.
Qed.

(** X10: with a table that is monotone and within [0, DecimalUnit], a
    validator index in range and a positive total weight, the marginal
    branch of [updMetric] ([median < cur < upd]) returns the exact
    difference of the two weighted table values: the [uint64]
    subtraction never wraps, and the result is never negative. *)
Theorem updMetric_marginal :
  forall median cur upd : Z,
    0 <= median -> median < cur -> cur < upd -> upd < 2 ^ 32 ->
    updMetric F median cur upd validatorIdx validators
    = Some (F ((upd - median) * piecefunc.DecimalUnit) * w
              / pos.TotalWeight validators
            - F ((cur - median) * piecefunc.DecimalUnit) * w
              / pos.TotalWeight validators)
    /\ 0 <= F ((upd - median) * piecefunc.DecimalUnit) * w
              / pos.TotalWeight validators
            - F ((cur - median) * piecefunc.DecimalUnit) * w
              / pos.TotalWeight validators.
Proof.
  intros median cur upd H0 H1 H2 H3.
  rewrite updMetric_value by lia.
  assert (E1 : (upd <=? median) = false) by (apply Z.leb_gt; lia).
  assert (E2 : (upd <=? cur) = false) by (apply Z.leb_gt; lia).
  assert (E3 : (median <? cur) = true) by (apply Z.ltb_lt; lia).
  rewrite E1, E2, E3. cbn [orb].
  split; [reflexivity |].
  pose proof (share_monotone (cur - median) (upd - median) ltac:(lia)) as Hmono.
  unfold share in Hmono. lia.
Qed.

(** X11: under the same conditions [updMetric] is non-decreasing in the
    candidate's sequence number, for fixed [median] and [cur], and never
    negative. *)
Theorem updMetric_monotone :
  forall median cur upd upd' : Z,
    0 <= median < 2 ^ 32 -> 0 <= cur < 2 ^ 32 ->
    0 <= upd -> upd <= upd' -> upd' < 2 ^ 32 ->
    exists m m' : Z,
      updMetric F median cur upd validatorIdx validators = Some m
      /\ updMetric F median cur upd' validatorIdx validators = Some m'
      /\ 0 <= m /\ m <= m'.
Proof.
  intros median cur upd upd' Hm Hc H0 Hle Hu.
  rewrite !updMetric_value by lia.
  eexists. eexists. split; [reflexivity |]. split; [reflexivity |].
  destruct (Z.leb_spec upd median) as [A1 | A1];
    destruct (Z.leb_spec upd cur) as [A2 | A2];
    destruct (Z.leb_spec upd' median) as [B1 | B1];
    destruct (Z.leb_spec upd' cur) as [B2 | B2];
    destruct (Z.ltb_spec median cur) as [C | C]; cbn [orb]; try lia;
    try pose proof (share_monotone (cur - median) (upd' - median) ltac:(lia));
    try pose proof (share_monotone (cur - median) (upd - median) ltac:(lia));
    try pose proof (share_monotone (upd - median) (upd' - median) ltac:(lia));
    try pose proof (share_nonneg (upd' - median) ltac:(lia));
    try pose proof (share_nonneg (upd - median) ltac:(lia));
    lia.
Qed.

End UpdMetric.

(** ** Which checks can fire *)

(** X12: what some of the [return]s of [isAllowedToEmit] exclude. An
    idle emitter never stops at the two metric-adjusted tests (lines 660
    and 665); an event that carries transactions never stops at the
    no-transactions test (line 650) nor at line 665; an emitter with
    pending work never stops at line 650; and with the gas power above
    [(NoTxsThreshold + EmergencyThreshold)/2] the low-power test
    (line 641) is never the one that fires. *)
Theorem isAllowedToEmit_site_exclusions :
  forall (u : spec_float -> Z) (em : Emitter) (e : inter.Event) (eTxs : bool)
         (metric : Z) (selfParent : option inter.Event),
    (idle em = true ->
     isAllowedToEmit_site u em e eTxs metric selfParent <> AdjustedBelowMin
     /\ isAllowedToEmit_site u em e eTxs metric selfParent
        <> AdjustedBelowConfirming)
    /\ (eTxs = true ->
        isAllowedToEmit_site u em e eTxs metric selfParent <> NoTxs
        /\ isAllowedToEmit_site u em e eTxs metric selfParent
           <> AdjustedBelowConfirming)
    /\ (idle em = false ->
        isAllowedToEmit_site u em e eTxs metric selfParent <> NoTxs)
    /\ (lowPowerThreshold em < inter.Min (inter.GasPowerLeft e) ->
        isAllowedToEmit_site u em e eTxs metric selfParent <> LowPower).
Proof.
  intros u em e eTxs metric selfParent.
  unfold isAllowedToEmit_site. rewrite supermajority_locals.
  set (l := blendIdle em e (locals em e metric)).
  split; [| split; [| split]].
  - intros Hidle. rewrite Hidle. cbn [negb andb].
    rewrite !andb_false_r. cbn [andb].
    split; split_ifs; discriminate.
  - intros ->. cbn [negb]. rewrite !andb_false_r.
    split; split_ifs; discriminate.
  - intros Hidle. rewrite Hidle. cbn [negb]. rewrite !andb_false_r.
    cbn [andb]. split_ifs; discriminate.
  - intros Hgas. apply Z.leb_gt in Hgas. rewrite Hgas. cbn [andb].
    split_ifs; discriminate.
Qed.

(** ** [recheckIdleTime] and the decision *)

Lemma notEnoughPower_withPrevIdleTime (t : Z) (em : Emitter) (e : inter.Event)
      (selfParent : option inter.Event) :
  notEnoughPower (withPrevIdleTime t em) e selfParent
  = notEnoughPower em e selfParent.
Proof. reflexivity. Qed.

(** X13: [recheckIdleTime], entered with the world mutex free, leaves
    the mutex free, so that it can be run again; a second run at the
    same instant changes nothing more; and no run changes what
    [isAllowedToEmit] returns, nor the elapsed time since the previous
    emission. *)
Theorem recheckIdleTime_idempotent :
  forall (now : Z) (em : Emitter),
    locked (world em) = false ->
    exists em' : Emitter,
      recheckIdleTime now em = Some em'
      /\ locked (world em') = false
      /\ recheckIdleTime now em' = Some em'
      /\ (forall (u : spec_float -> Z) (e : inter.Event) (eTxs : bool)
                 (metric : Z) (selfParent : option inter.Event),
             isAllowedToEmit u em' e eTxs metric selfParent
             = isAllowedToEmit u em e eTxs metric selfParent)
      /\ (forall (e : inter.Event) (metric : Z),
             passedTime (locals em' e metric) = passedTime (locals em e metric)).
Proof.
  intros now em Hfree.
  exists (if idle em then withPrevIdleTime now em else em).
  split; [apply recheckIdleTime_free; exact Hfree |].
  destruct (idle em) eqn:Hidle.
  - split; [exact Hfree |].
    split.
    + rewrite recheckIdleTime_free by exact Hfree.
      assert (Hi : idle (withPrevIdleTime now em) = true) by exact Hidle.
      rewrite Hi. reflexivity.
    + split.
      * intros u e eTxs metric selfParent.
        rewrite !isAllowedToEmit_negb_notEnoughPower.
        rewrite notEnoughPower_withPrevIdleTime. reflexivity.
      * intros e metric. reflexivity.
  - split; [exact Hfree |].
    split.
    + rewrite recheckIdleTime_free by exact Hfree. rewrite Hidle. reflexivity.
    + split; reflexivity.
Qed.

(** X14: after an idle emitter ran [recheckIdleTime] at instant [now],
    an event created at or before [now] has [passedTimeIdle = 0], and one
    created later has the time since [now] (capped at the largest
    [Duration]); for an emitter with pending work [passedTimeIdle] is
    what it was. *)
Theorem recheckIdleTime_resets_idle_time :
  forall (now : Z) (em : Emitter),
    locked (world em) = false ->
    exists em' : Emitter,
      recheckIdleTime now em = Some em'
      /\ (idle em = true ->
          forall (e : inter.Event) (metric : Z),
            (inter.Time (inter.CreationTime e) <= now ->
             passedTimeIdle (locals em' e metric) = 0)
            /\ (now <= inter.Time (inter.CreationTime e) ->
                passedTimeIdle (locals em' e metric)
                = Z.min (inter.Time (inter.CreationTime e) - now) Go.MaxInt64))
      /\ (idle em = false ->
          forall (e : inter.Event) (metric : Z),
            passedTimeIdle (locals em' e metric)
            = passedTimeIdle (locals em e metric)).
Proof.
  intros now em Hfree.
  exists (if idle em then withPrevIdleTime now em else em).
  split; [apply recheckIdleTime_free; exact Hfree |].
  destruct (idle em).
  - split; [| discriminate].
    intros _ e metric.
    unfold locals. cbn [passedTimeIdle withPrevIdleTime prevIdleTime].
    apply floor0_Sub.
  - split; [discriminate |]. intros _ e metric. reflexivity.
Qed.

(** * Properties of [evmcore] *)

(** ** [FakeKey] *)

Lemma keys_length : length evmcore.keys = 400%nat.
Proof. vm_compute. reflexivity. Qed.

Lemma distinct_NoDup (l : list String.string) :
  evmcore.distinct l = true -> NoDup l.
Proof.
  assert (Hocc : forall s l', evmcore.occurs s l' = false -> s ∉ l').
  { intros s l'. induction l' as [| x rest IH]; cbn [evmcore.occurs].
    - intros _. apply not_elem_of_nil.
    - intros H. apply orb_false_iff in H as [Hx Hr].
      apply not_elem_of_cons. split; [| apply IH; exact Hr].
      apply String.eqb_neq. exact Hx. }
  induction l as [| x rest IH]; cbn [evmcore.distinct].
  - intros _. constructor.
  - intros H. apply andb_true_iff in H as [Hx Hr].
    constructor; [| apply IH; exact Hr].
    apply Hocc. apply negb_true_iff. exact Hx.
Qed.

(** X15: [FakeKey(n)] panics at its range check for [n = 0] and for
    [n > 400]; for [1 <= n <= 400] the index [n-1] is within the table
    and the result is the decoding of that entry. *)
Theorem FakeKey_range :
  forall (PrivateKey : Type) (toECDSA : String.string -> option PrivateKey)
         (n : Z),
    0 <= n < 2 ^ 32 ->
    (n = 0 \/ 400 < n -> evmcore.FakeKey PrivateKey toECDSA n = None)
    /\ (1 <= n <= 400 ->
        exists key : String.string,
          evmcore.keys !! Z.to_nat (n - 1) = Some key
          /\ evmcore.FakeKey PrivateKey toECDSA n = toECDSA key).
Proof.
  intros PrivateKey toECDSA n Hn. unfold evmcore.FakeKey.
  rewrite keys_length. change (Z.of_nat 400) with 400.
  split.
  - intros [-> | Hbig]; [reflexivity |].
    assert (H : (400 <? n) = true) by (apply Z.ltb_lt; exact Hbig).
    rewrite H, orb_true_r. reflexivity.
  - intros Hin.
    assert (H0 : (n =? 0) = false) by (apply Z.eqb_neq; lia).
    assert (H1 : (400 <? n) = false) by (apply Z.ltb_ge; lia).
    rewrite H0, H1. cbn [orb].
    assert (Hu : Go.uint32 (n - 1) = n - 1).
    { unfold Go.uint32. apply Z.mod_small. lia. }
    rewrite Hu.
    destruct (lookup_lt_is_Some_2 evmcore.keys (Z.to_nat (n - 1))) as [key Hkey].
    { rewrite keys_length. lia. }
    exists key. rewrite Hkey. split; reflexivity.
Qed.

(** X16: two different validator numbers between 1 and 400 never select
    the same key string: the 400 entries of the table are pairwise
    different. *)
Theorem FakeKey_keys_distinct :
  forall n m : Z,
    1 <= n <= 400 -> 1 <= m <= 400 -> n <> m ->
    evmcore.keys !! Z.to_nat (n - 1) <> evmcore.keys !! Z.to_nat (m - 1)
    /\ is_Some (evmcore.keys !! Z.to_nat (n - 1))
    /\ is_Some (evmcore.keys !! Z.to_nat (m - 1)).
Proof.
  intros n m Hn Hm Hne.
  assert (Hnd : NoDup evmcore.keys).
  { apply distinct_NoDup. vm_compute. reflexivity. }
  assert (Sn : is_Some (evmcore.keys !! Z.to_nat (n - 1))).
  { apply lookup_lt_is_Some_2. rewrite keys_length. lia. }
  assert (Sm : is_Some (evmcore.keys !! Z.to_nat (m - 1))).
  { apply lookup_lt_is_Some_2. rewrite keys_length. lia. }
  split; [| split; assumption].
  destruct Sn as [kn Kn]. destruct Sm as [km Km].
  rewrite Kn, Km. intros Heq. injection Heq as ->.
  pose proof (NoDup_lookup _ _ _ _ Hnd Kn Km) as Hidx. lia.
Qed.

(** X17: every entry of the table is [0x] followed by exactly 64
    hexadecimal digits, 32 bytes, and the number it writes is non-zero
    and below the order of the group of secp256k1. *)
Theorem FakeKey_keys_valid :
  forall (i : nat) (key : String.string),
    evmcore.keys !! i = Some key ->
    String.length key = 66%nat
    /\ exists d : Z,
         evmcore.keyScalar key = Some d /\ 0 < d < evmcore.secp256k1N.
Proof.
  intros i key Hkey.
  assert (Hall : forallb (fun s => (String.length s =? 66)%nat && evmcore.validKey s)
                         evmcore.keys = true)
    by (vm_compute; reflexivity).
  rewrite forallb_forall in Hall.
  apply list_elem_of_lookup_2, list_elem_of_In in Hkey.
  specialize (Hall key Hkey).
  apply andb_true_iff in Hall as [Hlen Hvalid].
  split; [apply Nat.eqb_eq; exact Hlen |].
  unfold evmcore.validKey in Hvalid.
  destruct (evmcore.keyScalar key) as [d |]; [| discriminate].
  exists d. split; [reflexivity |].
  apply andb_true_iff in Hvalid as [H0 HN].
  apply Z.ltb_lt in H0. apply Z.ltb_lt in HN. lia.
Qed.

(** ** [ApplyFakeGenesis] *)

(** X18: [ApplyFakeGenesis] sets every balance, then commits once with
    [clean = true] and, if that succeeds, commits the trie at the root
    just obtained; it never caps the trie. It returns a block exactly
    when both commits succeed: the block has number 0, the given time,
    gas limit [2^64 - 1] and the committed root, and the error is [nil].
    Otherwise it returns no block and the error of the commit that
    failed, the trie commit not being attempted after a failed state
    commit. *)
Theorem ApplyFakeGenesis_outcome :
  forall (Hash Address Error : Type) (EmptyRootHash : Hash)
         (commitAnswer : list (evmcore.Call Hash Address) -> bool
                         -> Hash * option Error)
         (trieCommitAnswer : list (evmcore.Call Hash Address) -> Hash
                             -> option Error)
         (trieCapAnswer : list (evmcore.Call Hash Address) -> option Error)
         (calls : list (evmcore.Call Hash Address)) (time : Z)
         (balances : list (Address * Z)),
    let set_all :=
      calls ++ map (fun ab => evmcore.SetBalance Hash Address (fst ab) (snd ab))
                   balances in
    let root := fst (commitAnswer set_all true) in
    let committed := set_all ++ [evmcore.Commit Hash Address true] in
    let result :=
      evmcore.ApplyFakeGenesis Hash Address Error EmptyRootHash commitAnswer
        trieCommitAnswer trieCapAnswer calls time balances in
    (snd (commitAnswer set_all true) = None
     /\ trieCommitAnswer committed root = None
     /\ fst result = committed ++ [evmcore.TrieCommit Hash Address root false]
     /\ snd result
        = (Some {| evmcore.Number := 0;
                   evmcore.Time := time;
                   evmcore.GasLimit := 2 ^ 64 - 1;
                   evmcore.Root := root;
                   evmcore.TxHash := EmptyRootHash |},
           None))
    \/ (exists err : Error,
          snd (commitAnswer set_all true) = Some err
          /\ fst result = committed
          /\ snd result = (None, Some err))
    \/ (exists err : Error,
          snd (commitAnswer set_all true) = None
          /\ trieCommitAnswer committed root = Some err
          /\ fst result = committed ++ [evmcore.TrieCommit Hash Address root false]
          /\ snd result = (None, Some err)).
Proof.
  intros Hash Address Error EmptyRootHash commitAnswer trieCommitAnswer
    trieCapAnswer calls time balances set_all root committed result.
  subst result. unfold evmcore.ApplyFakeGenesis, evmcore.flush.
  fold set_all. subst root.
  destruct (commitAnswer set_all true) as [root [err |]] eqn:Ec; cbn [fst snd].
  - right. left. exists err. repeat split; reflexivity.
  - fold committed.
    destruct (trieCommitAnswer committed root) as [err |] eqn:Et; cbn [negb].
    + right. right. exists err. repeat split; reflexivity.
    + left. repeat split; reflexivity.
Qed.

(** * Concrete runs of the further properties *)

Lemma quarter_bounded (x : Z) :
  0 <= x -> 0 <= quarter x <= piecefunc.DecimalUnit.
Proof.
  intros Hx. unfold quarter, piecefunc.DecimalUnit.
  assert (0 <= x / 4) by (apply Z.div_pos; lia). lia.
Qed.

Lemma quarter_monotone (x y : Z) : 0 <= x <= y -> quarter x <= quarter y.
Proof.
  intros Hxy. unfold quarter.
  apply Z.min_le_compat_r. apply Z.div_le_mono; lia.
Qed.

(** The update metric on the sample validators, with the table
    [quarter]: validator 1 holds 300 of a total weight of 1000. *)
Example updMetric_samples :
  updMetric quarter 3 5 8 1 sampleValidators = Some 150000
  /\ updMetric quarter 3 5 6 1 sampleValidators = Some 75000
  /\ updMetric quarter 3 2 5 0 sampleValidators = Some 300000
  /\ updMetric quarter 3 5 8 7 sampleValidators = None
  /\ updMetric quarter 3 5 8 1 {| pos.entries := [] |} = None.
Proof. vm_compute. tauto. Qed.

(** A slack of 50 blocks. *)
Lemma maxBlocks_by_slack_witness :
  (12 <= BlockMissedSlack (world sampleEmitter) ->
   maxBlocks sampleEmitter = BlockMissedSlack (world sampleEmitter) - 5)
  /\ (BlockMissedSlack (world sampleEmitter) <= 2
      \/ 5 <= BlockMissedSlack (world sampleEmitter) <= 11 ->
      maxBlocks sampleEmitter = BlockMissedSlack (world sampleEmitter) / 2 + 1)
  /\ (BlockMissedSlack (world sampleEmitter) = 3 ->
      maxBlocks sampleEmitter = 2 ^ 64 - 2)
  /\ (BlockMissedSlack (world sampleEmitter) = 4 ->
      maxBlocks sampleEmitter = 2 ^ 64 - 1).
Proof.
  apply (maxBlocks_by_slack sampleEmitter). vm_compute.
  split; [discriminate | reflexivity].
Defined.

(** A metric of one half at the first event. *)
Lemma kickStartMetric_boost_witness :
  ((1 <= 1 /\ 500000 <= tenths 7 ->
    kickStartMetric 500000 1 = 500000 + tenths 3)
   /\ (1 <= 1 /\ tenths 7 < 500000 < tenths 9 ->
       kickStartMetric 500000 1 = 500000 + tenths 1)
   /\ (1 = 2 /\ 500000 < tenths 9 ->
       kickStartMetric 500000 1 = 500000 + tenths 1)
   /\ (2 < 1 \/ tenths 9 <= 500000 -> kickStartMetric 500000 1 = 500000))
  /\ kickStartMetric 500000 1 <> 500000 + tenths 2.
Proof.
  apply (kickStartMetric_boost 500000 1). lia.
Defined.

(** 0.7 ends at 1.0, 0.8 ends at 0.9. *)
Lemma kickStartMetric_inverts_order_witness :
  700000 < 800000 /\ kickStartMetric 800000 1 < kickStartMetric 700000 1.
Proof.
  apply (kickStartMetric_inverts_order 1 700000 800000).
  - lia.
  - vm_compute. split; discriminate.
  - vm_compute. split; reflexivity.
  - vm_compute. reflexivity.
Defined.

Lemma eventMetric_bounds_witness :
  quarter 2000000 <= eventMetric quarter 2000000 1 <= piecefunc.DecimalUnit.
Proof.
  apply (eventMetric_bounds quarter 2000000 1).
  vm_compute. split; discriminate.
Defined.

(** 300 of a total weight of 1000 at sequence distance 2. *)
Lemma scalarUpdMetric_weighted_witness :
  exists m : Z,
    scalarUpdMetric quarter 2 300 1000 = Some m
    /\ m = quarter (2 * piecefunc.DecimalUnit) * 300 / 1000
    /\ 0 <= m <= quarter (2 * piecefunc.DecimalUnit)
    /\ (300 = 1000 -> m = quarter (2 * piecefunc.DecimalUnit))
    /\ (300 = 0 -> m = 0).
Proof.
  apply (scalarUpdMetric_weighted quarter 2 300 1000); try lia.
  vm_compute. split; discriminate.
Defined.

Lemma updMetric_marginal_witness :
  updMetric quarter 3 5 8 1 sampleValidators
  = Some (quarter ((8 - 3) * piecefunc.DecimalUnit) * 300
            / pos.TotalWeight sampleValidators
          - quarter ((5 - 3) * piecefunc.DecimalUnit) * 300
            / pos.TotalWeight sampleValidators)
  /\ 0 <= quarter ((8 - 3) * piecefunc.DecimalUnit) * 300
            / pos.TotalWeight sampleValidators
          - quarter ((5 - 3) * piecefunc.DecimalUnit) * 300
            / pos.TotalWeight sampleValidators.
Proof.
  apply (updMetric_marginal quarter quarter_bounded quarter_monotone
           sampleValidators 1 300); try lia.
  - reflexivity.
  - vm_compute. reflexivity.
Defined.

Lemma updMetric_monotone_witness :
  exists m m' : Z,
    updMetric quarter 3 5 6 1 sampleValidators = Some m
    /\ updMetric quarter 3 5 8 1 sampleValidators = Some m'
    /\ 0 <= m /\ m <= m'.
Proof.
  apply (updMetric_monotone quarter quarter_bounded quarter_monotone
           sampleValidators 1 300); try lia.
  - reflexivity.
  - vm_compute. reflexivity.
Defined.

Lemma recheckIdleTime_idempotent_witness :
  exists em' : Emitter,
    recheckIdleTime (sampleStart + 5) sampleIdleEmitter = Some em'
    /\ locked (world em') = false
    /\ recheckIdleTime (sampleStart + 5) em' = Some em'
    /\ (forall (u : spec_float -> Z) (e : inter.Event) (eTxs : bool)
               (metric : Z) (selfParent : option inter.Event),
           isAllowedToEmit u em' e eTxs metric selfParent
           = isAllowedToEmit u sampleIdleEmitter e eTxs metric selfParent)
    /\ (forall (e : inter.Event) (metric : Z),
           passedTime (locals em' e metric)
           = passedTime (locals sampleIdleEmitter e metric)).
Proof.
  apply (recheckIdleTime_idempotent (sampleStart + 5) sampleIdleEmitter).
  reflexivity.
Defined.

Lemma recheckIdleTime_resets_idle_time_witness :
  exists em' : Emitter,
    recheckIdleTime (sampleStart + 5) sampleIdleEmitter = Some em'
    /\ (idle sampleIdleEmitter = true ->
        forall (e : inter.Event) (metric : Z),
          (inter.Time (inter.CreationTime e) <= sampleStart + 5 ->
           passedTimeIdle (locals em' e metric) = 0)
          /\ (sampleStart + 5 <= inter.Time (inter.CreationTime e) ->
              passedTimeIdle (locals em' e metric)
              = Z.min (inter.Time (inter.CreationTime e) - (sampleStart + 5))
                      Go.MaxInt64))
    /\ (idle sampleIdleEmitter = false ->
        forall (e : inter.Event) (metric : Z),
          passedTimeIdle (locals em' e metric)
          = passedTimeIdle (locals sampleIdleEmitter e metric)).
Proof.
  apply (recheckIdleTime_resets_idle_time (sampleStart + 5) sampleIdleEmitter).
  reflexivity.
Defined.

(** The first and the last validator number, with a decoder that hands
    the string back. *)
Lemma FakeKey_range_witness :
  (400 = 0 \/ 400 < 400 -> evmcore.FakeKey String.string Some 400 = None)
  /\ (1 <= 400 <= 400 ->
      exists key : String.string,
        evmcore.keys !! Z.to_nat (400 - 1) = Some key
        /\ evmcore.FakeKey String.string Some 400 = Some key).
Proof.
  apply (FakeKey_range String.string Some 400). vm_compute.
  split; [discriminate | reflexivity].
Defined.

Lemma FakeKey_keys_distinct_witness :
  evmcore.keys !! Z.to_nat (1 - 1) <> evmcore.keys !! Z.to_nat (400 - 1)
  /\ is_Some (evmcore.keys !! Z.to_nat (1 - 1))
  /\ is_Some (evmcore.keys !! Z.to_nat (400 - 1)).
Proof.
  apply (FakeKey_keys_distinct 1 400); lia.
Defined.

Lemma FakeKey_keys_valid_witness :
  String.length (nth 0 evmcore.keys String.EmptyString) = 66%nat
  /\ exists d : Z,
       evmcore.keyScalar (nth 0 evmcore.keys String.EmptyString) = Some d
       /\ 0 < d < evmcore.secp256k1N.
Proof.
  apply (FakeKey_keys_valid 0 (nth 0 evmcore.keys String.EmptyString)).
  reflexivity.
Defined.
